(** * time-server: routing, JSON-model binding and typed errors

    A shallow embedding of [server.py].  Python functions that may raise
    are functions into [result]; the interpreter's own exceptions are
    constructors of [exception] next to the program's [ApplicationError].
    Library collaborators ([json.loads], [re.match], [zoneinfo.ZoneInfo],
    [datetime.now], [strptime], [strftime], [int], [bytes.decode]) are the
    fields of a [Platform]. *)

From Stdlib Require Import ZArith List String Ascii Bool Lia DecimalString.
From Stdlib Require Strings.Byte.
Import ListNotations.

Set Warnings "-register-all".

Local Open Scope string_scope.
Local Open Scope Z_scope.

(** ** Exceptions and results *)

Inductive exception : Type :=
| ApplicationError (message : string) (code : Z)
| AttributeError
| TypeError
| ValueError
| KeyError
| OverflowError
| MemoryError.

Inductive result (A : Type) : Type :=
| Ok (a : A)
| Raise (e : exception).

Arguments Ok {A} a.
Arguments Raise {A} e.

Definition bind {A B : Type} (m : result A) (k : A -> result B) : result B :=
  match m with
  | Ok a => k a
  | Raise e => Raise e
  end.

Notation "x <- m ;; k" := (bind m (fun x => k))
  (at level 61, m at next level, right associativity).

(** [ApplicationError(message='application error', code=400)]: the
    program only ever passes the message. *)
Definition ApplicationError_ (message : string) : exception :=
  ApplicationError message 400.

Definition is_ApplicationError (e : exception) : bool :=
  match e with
  | ApplicationError _ _ => true
  | _ => false
  end.

(** ** Dictionaries with string keys, in insertion order *)

Section Dict.
Context {A : Type}.

Fixpoint dict_get (key : string) (d : list (string * A)) : option A :=
  match d with
  | [] => None
  | (k, v) :: rest => if String.eqb key k then Some v else dict_get key rest
  end.

Fixpoint dict_set (key : string) (v : A) (d : list (string * A))
  : list (string * A) :=
  match d with
  | [] => [(key, v)]
  | (k, w) :: rest =>
      if String.eqb key k then (k, v) :: rest
      else (k, w) :: dict_set key v rest
  end.

Definition dict_keys (d : list (string * A)) : list string := map fst d.
End Dict.

(** ** JSON values, as [json.loads] returns them

    A float is kept by its [repr]. *)

Inductive Json : Type :=
| JNull
| JBool (b : bool)
| JInt (n : Z)
| JFloat (repr : string)
| JStr (s : string)
| JList (items : list Json)
| JDict (items : list (string * Json)).

(** ** Model classes and the objects bound from JSON *)

Inductive ModelClass : Type :=
| TimezoneModel
| DateModel
| DatesDiffModel.

(** The type objects that occur as annotations, and so as the [cls]
    argument of [model_from_json]: [str], [str | None] and the model
    classes. *)
Inductive pytype : Type :=
| Tstr
| Tstr_or_None
| Tmodel (c : ModelClass).

(** [cls.__annotations__] of each model class. *)
Definition annotations (c : ModelClass) : list (string * pytype) :=
  match c with
  | TimezoneModel => [("tz", Tstr_or_None)]
  | DateModel => [("date", Tstr); ("tz", Tstr_or_None)]
  | DatesDiffModel => [("start", Tmodel DateModel); ("end", Tmodel DateModel)]
  end.

(** Run-time values held by model attributes: [None], a [str], or an
    instance of a model class with its attribute dictionary. *)
Inductive value : Type :=
| VNone
| VStr (s : string)
| VInstance (cls : ModelClass) (attrs : list (string * value)).

(** [cls.__new__(cls)]: a bare instance for a class, the empty string for
    [str]; a union type is not a type object. *)
Definition new (cls : pytype) : result value :=
  match cls with
  | Tmodel c => Ok (VInstance c [])
  | Tstr => Ok (VStr EmptyString)
  | Tstr_or_None => Raise TypeError
  end.

(** [model.__annotations__], found on the instance's class. *)
Definition instance_annotations (model : value)
  : result (list (string * pytype)) :=
  match model with
  | VInstance c _ => Ok (annotations c)
  | _ => Raise AttributeError
  end.

(** [cls.__annotations__]. *)
Definition class_annotations (cls : pytype)
  : result (list (string * pytype)) :=
  match cls with
  | Tmodel c => Ok (annotations c)
  | _ => Raise AttributeError
  end.

Definition setattr (model : value) (key : string) (v : value) : result value :=
  match model with
  | VInstance c attrs => Ok (VInstance c (dict_set key v attrs))
  | _ => Raise AttributeError
  end.

(** [getattr(model, key)] as an option; [None] is a missing attribute.
    No annotated name is a class attribute, so the instance dictionary
    decides. *)
Definition getattr (model : value) (key : string) : option value :=
  match model with
  | VInstance _ attrs => dict_get key attrs
  | _ => None
  end.

(** [hasattr(model, key) and getattr(model, key) is not None] *)
Definition has_value (model : value) (key : string) : bool :=
  match getattr model key with
  | Some VNone => false
  | Some _ => true
  | None => false
  end.

(** [get_origin(attr_type) is UnionType and NoneType in get_args(attr_type)] *)
Definition permits_None (attr_type : pytype) : bool :=
  match attr_type with
  | Tstr_or_None => true
  | _ => false
  end.

(** The second loop of [model_from_json], over the keys of
    [cls.__annotations__]. *)
Fixpoint complete (keys : list string) (model : value) : result value :=
  match keys with
  | [] => Ok model
  | key :: rest =>
      if has_value model key then complete rest model
      else
        ann <- instance_annotations model ;;
        match dict_get key ann with
        | None => Raise KeyError
        | Some attr_type =>
            if permits_None attr_type then
              model <- setattr model key VNone ;;
              complete rest model
            else
              Raise (ApplicationError_ ("missing required param: " ++ key))
        end
  end.

(** The first loop of [model_from_json], over [json.items()]; [bind_nested]
    is the recursive call [model_from_json(attr_type, value)]. *)
Definition consume (bind_nested : pytype -> Json -> result value)
  : list (string * Json) -> value -> result value :=
  fix consume (items : list (string * Json)) (model : value) {struct items}
    : result value :=
    match items with
    | [] => Ok model
    | (key, v) :: rest =>
        ann <- instance_annotations model ;;
        match dict_get key ann with
        | None =>
            Raise (ApplicationError_ ("unexpected param provided: " ++ key))
        | Some attr_type =>
            match v with
            | JStr s =>
                model <- setattr model key (VStr s) ;;
                consume rest model
            | JDict _ =>
                bound <- bind_nested attr_type v ;;
                model <- setattr model key bound ;;
                consume rest model
            | JList _ =>
                Raise (ApplicationError_
                         ("list in json is not supported: " ++ key))
            | _ =>
                Raise (ApplicationError_
                         ("unexpected type of json param: " ++ key))
            end
        end
    end.

(** [model_from_json(cls, json)]: [json.items()] needs a dictionary. *)
Fixpoint model_from_json (cls : pytype) (json : Json) {struct json}
  : result value :=
  model <- new cls ;;
  match json with
  | JDict items =>
      model <- consume model_from_json items model ;;
      keys <- class_annotations cls ;;
      complete (dict_keys keys) model
  | _ => Raise AttributeError
  end.

(** ** Strings the program prints *)

(** [str(n)] and the [%d] conversion of an integer. *)
Definition str_int (n : Z) : string := NilZero.string_of_int (Z.to_int n).

(** The [%02d] conversion of a number below a hundred. *)
Definition pad2 (n : Z) : string :=
  if n <? 10 then "0" ++ str_int n else str_int n.

Definition chr (n : nat) : string := String (ascii_of_nat n) EmptyString.

Definition hex_digit (n : nat) : string :=
  match n with
  | 10%nat => "a" | 11%nat => "b" | 12%nat => "c"
  | 13%nat => "d" | 14%nat => "e" | 15%nat => "f"
  | _ => str_int (Z.of_nat n)
  end.

(** One character of [json.dumps] output with [ensure_ascii]: the
    two-character escapes, printable ASCII as it is, [\uXXXX] otherwise. *)
Definition json_escape (c : ascii) : string :=
  let n := nat_of_ascii c in
  match n with
  | 34%nat => chr 92 ++ chr 34
  | 92%nat => chr 92 ++ chr 92
  | 10%nat => chr 92 ++ "n"
  | 13%nat => chr 92 ++ "r"
  | 9%nat => chr 92 ++ "t"
  | 8%nat => chr 92 ++ "b"
  | 12%nat => chr 92 ++ "f"
  | _ =>
      if ((32 <=? n) && (n <=? 126))%nat then String c EmptyString
      else chr 92 ++ "u00" ++ hex_digit (n / 16) ++ hex_digit (n mod 16)
  end.

Fixpoint json_escape_all (s : string) : string :=
  match s with
  | EmptyString => EmptyString
  | String c rest => json_escape c ++ json_escape_all rest
  end.

Definition json_dumps_str (s : string) : string :=
  chr 34 ++ json_escape_all s ++ chr 34.

(** [json.dumps(v)], with the default separators. *)
Fixpoint json_dumps (v : Json) : string :=
  match v with
  | JNull => "null"
  | JBool true => "true"
  | JBool false => "false"
  | JInt n => str_int n
  | JFloat repr => repr
  | JStr s => json_dumps_str s
  | JList items =>
      "[" ++ (fix elements (items : list Json) : string :=
                match items with
                | [] => EmptyString
                | [e] => json_dumps e
                | e :: rest => json_dumps e ++ ", " ++ elements rest
                end) items ++ "]"
  | JDict items =>
      "{" ++ (fix members (items : list (string * Json)) : string :=
                match items with
                | [] => EmptyString
                | [(key, e)] => json_dumps_str key ++ ": " ++ json_dumps e
                | (key, e) :: rest =>
                    json_dumps_str key ++ ": " ++ json_dumps e ++ ", "
                      ++ members rest
                end) items ++ "}"
  end.

(** [str(timedelta)] of a difference of whole seconds: the timedelta is
    normalised to days and [0 <= seconds < 86400], and the days are
    printed only when they are not zero. *)
Definition timedelta_str (total_seconds : Z) : string :=
  let days := total_seconds / 86400 in
  let seconds := total_seconds mod 86400 in
  let mm := seconds / 60 in
  let ss := seconds mod 60 in
  let hh := mm / 60 in
  let mm := mm mod 60 in
  let s := str_int hh ++ ":" ++ pad2 mm ++ ":" ++ pad2 ss in
  if days =? 0 then s
  else
    str_int days ++ " day" ++ (if Z.abs days =? 1 then EmptyString else "s")
      ++ ", " ++ s.

(** ** Response *)

Record Response : Type := {
  body : string;
  status : string;
  headers : list (string * string)
}.

(** The entries of [http.client.responses] that the program looks up. *)
Definition http_client_responses (code : Z) : option string :=
  match code with
  | 200 => Some "OK"
  | 400 => Some "Bad Request"
  | 404 => Some "Not Found"
  | 500 => Some "Internal Server Error"
  | _ => None
  end.

(** [Response(body, code, content_type)]; concatenating [None] to the
    status is a [TypeError]. *)
Definition Response_init (body : string) (code : Z) (content_type : string)
  : result Response :=
  match http_client_responses code with
  | Some phrase =>
      Ok {| body := body;
            status := str_int code ++ " " ++ phrase;
            headers := [("Content-Type", content_type)] |}
  | None => Raise TypeError
  end.

Definition Response_json (body : string) (code : Z) : result Response :=
  Response_init (json_dumps (JDict [("message", JStr body)])) code
    "application/json".

Definition Response_error (message : string) (code : Z) : result Response :=
  Response_init (json_dumps (JDict [("reason", JStr message)])) code
    "application/json".

Definition Response_html (body : string) (code : Z) : result Response :=
  let nl := chr 10 in
  let body :=
    nl ++ "<html>" ++ nl
       ++ "    <head><title>Time Server</title></head>" ++ nl
       ++ "    <body>" ++ nl
       ++ "        <div>" ++ body ++ "</div>" ++ nl
       ++ "    </body>" ++ nl
       ++ "</html>" ++ nl in
  Response_init body code "text/html".

(** [ApplicationError.get_response]; other exceptions have no such
    method. *)
Definition get_response (e : exception) : result Response :=
  match e with
  | ApplicationError message code => Response_error message code
  | _ => Raise AttributeError
  end.

(** ** Dates, time zones and the platform *)

(** A time zone as the program uses it: the offset in seconds of a wall
    clock reading ([utcoffset]), and of an instant given in UTC
    ([fromutc]). *)
Record tzinfo : Type := {
  utcoffset : Z -> Z;
  offset_at_utc : Z -> Z
}.

(** [timezone.utc] *)
Definition timezone_utc : tzinfo :=
  {| utcoffset := fun _ => 0; offset_at_utc := fun _ => 0 |}.

(** A [datetime]: whole seconds of wall clock since 0001-01-01 00:00:00
    and the attached zone.  [datetime.strptime] with the program's formats
    yields no fraction of a second, and [strftime] and [date()] drop it. *)
Record datetime : Type := {
  wall : Z;
  tz : option tzinfo
}.

(** The last second of [datetime.max], 9999-12-31 23:59:59. *)
Definition datetime_max : Z := 3652059 * 86400 - 1.

Record Platform : Type := {
  (** [int(s)]; [None] is a [ValueError] *)
  int : string -> option Z;
  (** [bytes.decode('utf-8', errors='ignore')] *)
  decode : list Byte.byte -> string;
  (** [json.loads(s)]; [None] is any exception *)
  json_loads : string -> option Json;
  (** [re.match(pattern, s)] and the match's [groupdict()] *)
  regex_match : string -> string -> option (list (string * option string));
  (** [zoneinfo.ZoneInfo(name)]; [None] is any exception *)
  ZoneInfo : string -> option tzinfo;
  (** the instant [datetime.now] reads, in seconds of UTC *)
  clock : Z;
  (** [datetime.strptime(s, format)]; [None] is a [ValueError] *)
  strptime : string -> string -> option Z;
  (** [dt.strftime(format)] *)
  strftime : datetime -> string -> string;
  (** [str(dt.date())] *)
  date_str : datetime -> string;
  (** the size in bytes of the largest buffer [read] can get *)
  memory : Z
}.

Definition OUTPUT_DATETIME_FORMAT : string := "%Y-%m-%d %H:%M:%S".

(** ** Request *)

(** The WSGI environment entries the program reads, the bytes waiting on
    [wsgi.input], and the path parameters ([None] until
    [set_path_params] has run). *)
Record Request : Type := {
  REQUEST_METHOD : string;
  PATH_INFO : string;
  CONTENT_LENGTH : option string;
  wsgi_input : list Byte.byte;
  path_params : option (list (string * option string))
}.

Definition get_method (request : Request) : string := REQUEST_METHOD request.

Definition get_path (request : Request) : string := PATH_INFO request.

Definition set_path_params (request : Request)
  (params : list (string * option string)) : Request :=
  {| REQUEST_METHOD := REQUEST_METHOD request;
     PATH_INFO := PATH_INFO request;
     CONTENT_LENGTH := CONTENT_LENGTH request;
     wsgi_input := wsgi_input request;
     path_params := Some params |}.

Definition get_path_param (request : Request) (param_key : string)
  : result string :=
  match path_params request with
  | None => Raise AttributeError
  | Some params =>
      match dict_get param_key params with
      | Some (Some param_value) => Ok param_value
      | _ => Raise (ApplicationError_ "required path param not provided")
      end
  end.

(** [int(content_length) if content_length else 0] *)
Definition content_length (P : Platform) (request : Request) : result Z :=
  match CONTENT_LENGTH request with
  | None => Ok 0
  | Some s =>
      if String.eqb s EmptyString then Ok 0
      else match int P s with
           | Some n => Ok n
           | None => Raise ValueError
           end
  end.

(** [environ['wsgi.input'].read(n) if n > 0 else b""].  The buffered
    reader first gets a buffer of [n] bytes: an [OverflowError] when [n] is
    no machine size (2^63 and more), a [MemoryError] when there is no
    buffer of that size; then it gives the bytes there are, [n] at most.
    The call is outside the [try] of [get_body]. *)
Definition read_body (P : Platform) (request : Request) (n : Z)
  : result (list Byte.byte) :=
  if 0 <? n then
    if 9223372036854775808 <=? n then Raise OverflowError
    else if memory P <? n then Raise MemoryError
    else Ok (firstn (Z.to_nat n) (wsgi_input request))
  else Ok [].

Definition get_body (P : Platform) (request : Request) : result Json :=
  n <- content_length P request ;;
  request_body <- read_body P request n ;;
  let request_body := decode P request_body in
  let request_json :=
    match json_loads P request_body with
    | Some parsed => parsed
    | None => JDict []
    end in
  Ok (match request_json with
      | JStr EmptyString => JDict []
      | _ => request_json
      end).

(** ** TimezoneModel, DateModel, DatesDiffModel *)

(** [TimezoneModel(tz)] *)
Definition TimezoneModel_init (tz : value) : value :=
  VInstance TimezoneModel [("tz", tz)].

(** [ZoneInfo('UTC')] for a missing zone is outside the [try]; a failing
    lookup there is the library's [ZoneInfoNotFoundError], a [KeyError]. *)
Definition get_parsed_tz (P : Platform) (self : value) : result tzinfo :=
  match getattr self "tz" with
  | None => Raise AttributeError
  | Some VNone =>
      match ZoneInfo P "UTC" with
      | Some zone => Ok zone
      | None => Raise KeyError
      end
  | Some (VStr name) =>
      match ZoneInfo P name with
      | Some zone => Ok zone
      | None => Raise (ApplicationError_ "invalid timezone")
      end
  | Some (VInstance _ _) => Raise (ApplicationError_ "invalid timezone")
  end.

(** [datetime.now(tz)] *)
Definition datetime_now (P : Platform) (zone : tzinfo) : datetime :=
  {| wall := clock P + offset_at_utc zone (clock P); tz := Some zone |}.

(** The [try] covers both steps, and every exception becomes
    'invalid timezone'. *)
Definition get_datetime (P : Platform) (self : value) : result datetime :=
  match get_parsed_tz P self with
  | Ok zone => Ok (datetime_now P zone)
  | Raise _ => Raise (ApplicationError_ "invalid timezone")
  end.

Definition get_str_datetime (P : Platform) (self : value) : result string :=
  dt <- get_datetime P self ;;
  Ok (strftime P dt OUTPUT_DATETIME_FORMAT).

Definition supported_datime_formats : list string :=
  ["%I:%M%p %Y-%m-%d"; "%m.%d.%Y %H:%M:%S"].

(** The loop over the formats: the first one that parses wins; a date
    that is not a string parses with none. *)
Fixpoint first_parsed (P : Platform) (date : value) (formats : list string)
  : option Z :=
  match formats with
  | [] => None
  | supported_format :: rest =>
      match date with
      | VStr s =>
          match strptime P s supported_format with
          | Some dt => Some dt
          | None => first_parsed P date rest
          end
      | _ => first_parsed P date rest
      end
  end.

(** The text an f-string puts for a value; an instance prints with its
    address, which is left out here. *)
Definition format_value (v : value) : string :=
  match v with
  | VNone => "None"
  | VStr s => s
  | VInstance _ _ => "<object>"
  end.

Definition get_parsed_date (P : Platform) (self : value) : result datetime :=
  match getattr self "date" with
  | None => Raise AttributeError
  | Some date =>
      match first_parsed P date supported_datime_formats with
      | None =>
          Raise (ApplicationError_
                   ("invalid datetime format: " ++ format_value date))
      | Some dt =>
          match getattr self "tz" with
          | None => Raise AttributeError
          | Some zone_name =>
              timezone <- get_parsed_tz P (TimezoneModel_init zone_name) ;;
              Ok {| wall := dt; tz := Some timezone |}
          end
      end
  end.

(** [dt.astimezone(timezone.utc)]: the offset of the wall clock reading is
    subtracted, and a result outside the range of [datetime] is an
    [OverflowError]. *)
Definition astimezone_utc (dt : datetime) : result datetime :=
  let offset :=
    match tz dt with
    | Some zone => utcoffset zone (wall dt)
    | None => 0
    end in
  let utc := wall dt - offset in
  if (0 <=? utc) && (utc <=? datetime_max)
  then Ok {| wall := utc; tz := Some timezone_utc |}
  else Raise OverflowError.

Definition get_date_in_utc (P : Platform) (self : value) : result datetime :=
  dt <- get_parsed_date P self ;;
  astimezone_utc dt.

(** The instant of an aware [datetime], in seconds of UTC. *)
Definition instant (dt : datetime) : Z :=
  match tz dt with
  | Some zone => wall dt - utcoffset zone (wall dt)
  | None => wall dt
  end.

(** [a - b] on two aware datetimes: a [timedelta], in seconds. *)
Definition datetime_sub (a b : datetime) : Z := instant a - instant b.

(** [obj.get_date_in_utc()]: only [DateModel] has the method. *)
Definition call_get_date_in_utc (P : Platform) (obj : value)
  : result datetime :=
  match obj with
  | VInstance DateModel _ => get_date_in_utc P obj
  | _ => Raise AttributeError
  end.

Definition get_diff (P : Platform) (self : value) : result Z :=
  match getattr self "start" with
  | None => Raise AttributeError
  | Some start =>
      a <- call_get_date_in_utc P start ;;
      match getattr self "end" with
      | None => Raise AttributeError
      | Some finish =>
          b <- call_get_date_in_utc P finish ;;
          Ok (datetime_sub a b)
      end
  end.

(** ** Handlers *)

Definition RouteHandler : Type := Request -> result Response.

Definition render_timezone_time (P : Platform) : RouteHandler :=
  fun request =>
    timezone <- get_path_param request "timezone" ;;
    let timezone := TimezoneModel_init (VStr timezone) in
    datetime <- get_str_datetime P timezone ;;
    Response_html datetime 200.

Definition render_continent_city_time (P : Platform) : RouteHandler :=
  fun request =>
    continent <- get_path_param request "continent" ;;
    city <- get_path_param request "city" ;;
    let timezone := TimezoneModel_init (VStr (continent ++ "/" ++ city)) in
    datetime <- get_str_datetime P timezone ;;
    Response_html datetime 200.

Definition render_continent_country_city_time (P : Platform) : RouteHandler :=
  fun request =>
    continent <- get_path_param request "continent" ;;
    country <- get_path_param request "country" ;;
    city <- get_path_param request "city" ;;
    let timezone :=
      TimezoneModel_init (VStr (continent ++ "/" ++ country ++ "/" ++ city)) in
    datetime <- get_str_datetime P timezone ;;
    Response_html datetime 200.

Definition render_server_time (P : Platform) : RouteHandler :=
  fun _ =>
    let dt := strftime P (datetime_now P timezone_utc) OUTPUT_DATETIME_FORMAT in
    Response_html dt 200.

Definition get_timezone_time (P : Platform) : RouteHandler :=
  fun request =>
    json <- get_body P request ;;
    timezone <- model_from_json (Tmodel TimezoneModel) json ;;
    datetime <- get_str_datetime P timezone ;;
    Response_json datetime 200.

Definition get_timezone_date (P : Platform) : RouteHandler :=
  fun request =>
    json <- get_body P request ;;
    timezone <- model_from_json (Tmodel TimezoneModel) json ;;
    dt <- get_datetime P timezone ;;
    Response_json (date_str P dt) 200.

Definition get_dates_diff (P : Platform) : RouteHandler :=
  fun request =>
    json <- get_body P request ;;
    dates_diff <- model_from_json (Tmodel DatesDiffModel) json ;;
    dates_diff <- get_diff P dates_diff ;;
    Response_json (timedelta_str dates_diff) 200.

(** ** Routes and the router *)

Record Route : Type := {
  method : string;
  path_regex : string;
  handler : RouteHandler
}.

(** What [Router.handle_request] does with the handler's outcome: a
    response is returned, an [ApplicationError] is turned into its
    response, and for any other exception the 500 response is built and the
    exception raised again. *)
Definition dispatch (outcome : result Response) : result Response :=
  match outcome with
  | Ok response => Ok response
  | Raise (ApplicationError message code) =>
      get_response (ApplicationError message code)
  | Raise e =>
      response <- Response_init "server error" 500 "application/json" ;;
      Raise e
  end.

(** [Router.handle_request], with the routes still to scan and the index
    of the first of them.  The first component of the result lists the
    routes whose handler was called. *)
Fixpoint handle_request_from (P : Platform) (i : nat) (routes : list Route)
  (request : Request) : list nat * result Response :=
  match routes with
  | [] => ([], Response_init "not found" 404 "application/json")
  | route :: rest =>
      if negb (String.eqb (method route) (get_method request))
      then handle_request_from P (S i) rest request
      else
        match regex_match P (path_regex route) (get_path request) with
        | None => handle_request_from P (S i) rest request
        | Some groupdict =>
            let request := set_path_params request groupdict in
            ([i], dispatch (handler route request))
        end
  end.

Definition handle_request (P : Platform) (routes : list Route)
  (request : Request) : list nat * result Response :=
  handle_request_from P 0 routes request.

(** The routes of [create_application]. *)
Definition create_application (P : Platform) : list Route :=
  [ {| method := "GET"; path_regex := "^/$";
       handler := render_server_time P |};
    {| method := "GET";
       path_regex :=
         "^/(?P<continent>[a-zA-Z_]+)/(?P<country>[a-zA-Z_]+)/(?P<city>[a-zA-Z_]+)$";
       handler := render_continent_country_city_time P |};
    {| method := "GET";
       path_regex := "^/(?P<continent>[a-zA-Z_]+)/(?P<city>[a-zA-Z_]+)$";
       handler := render_continent_city_time P |};
    {| method := "GET";
       path_regex := "^/(?P<timezone>[a-zA-Z_]{3,})$";
       handler := render_timezone_time P |};
    {| method := "POST"; path_regex := "^/api/v1/time$";
       handler := get_timezone_time P |};
    {| method := "POST"; path_regex := "^/api/v1/date$";
       handler := get_timezone_date P |};
    {| method := "POST"; path_regex := "^/api/v1/datediff$";
       handler := get_dates_diff P |} ].

(** ** A matcher for the syntax of the route patterns

    [re.match] on the part of the pattern language the routes are written
    in: [^], [$], literal characters, character classes of characters and
    ranges, the greedy quantifiers [+], [*], [?], [{m}], [{m,}], [{m,n}] on
    a character or a class, and named groups [(?P<name>...)].  Matching
    backtracks as [re] does, longest repetition first.  [$] matches at the
    end of the string and before a newline that ends it. *)

Inductive charset : Type :=
| Single (c : ascii)
| Ranges (rs : list (ascii * ascii)).

Inductive regex : Type :=
| Bol
| Eol
| Chars (cs : charset) (lo : nat) (hi : option nat)
| Group (name : string) (items : list regex).

Definition in_charset (cs : charset) (c : ascii) : bool :=
  match cs with
  | Single d => Ascii.eqb c d
  | Ranges rs =>
      existsb (fun r => (nat_of_ascii (fst r) <=? nat_of_ascii c)%nat
                        && (nat_of_ascii c <=? nat_of_ascii (snd r))%nat) rs
  end.

Definition is_digit (c : ascii) : bool :=
  ((48 <=? nat_of_ascii c) && (nat_of_ascii c <=? 57))%nat.

Fixpoint parse_digits (s : string) (acc : nat) : nat * string :=
  match s with
  | String c rest =>
      if is_digit c
      then parse_digits rest (10 * acc + (nat_of_ascii c - 48))%nat
      else (acc, s)
  | EmptyString => (acc, s)
  end.

Definition starts_with_digit (s : string) : bool :=
  match s with
  | String c _ => is_digit c
  | EmptyString => false
  end.

Definition starts_with_quantifier (s : string) : bool :=
  match s with
  | String c _ =>
      existsb (Ascii.eqb c) ["+"; "*"; "?"; "{"]%char
  | EmptyString => false
  end.

(** The quantifier at the head of [s], if any: its bounds and the rest of
    the pattern.  A second quantifier (lazy or possessive) is not in the
    syntax. *)
Definition parse_quantifier (s : string) : option (nat * option nat * string) :=
  let finish (q : nat * option nat * string) :=
    if starts_with_quantifier (snd q) then None else Some q in
  match s with
  | String "+" rest => finish (1%nat, None, rest)
  | String "*" rest => finish (0%nat, None, rest)
  | String "?" rest => finish (0%nat, Some 1%nat, rest)
  | String "{" rest =>
      if starts_with_digit rest then
        let (m, rest) := parse_digits rest 0 in
        match rest with
        | String "}" rest => finish (m, Some m, rest)
        | String "," (String "}" rest) => finish (m, None, rest)
        | String "," rest =>
            if starts_with_digit rest then
              let (n, rest) := parse_digits rest 0 in
              match rest with
              | String "}" rest => finish (m, Some n, rest)
              | _ => None
              end
            else None
        | _ => None
        end
      else None
  | _ => Some (1%nat, Some 1%nat, s)
  end.

(** The members of a class up to its closing bracket. *)
Fixpoint parse_class (s : string) (acc : list (ascii * ascii))
  : option (charset * string) :=
  match s with
  | EmptyString => None
  | String c rest =>
      if Ascii.eqb c "]" then
        match acc with
        | [] => None
        | _ => Some (Ranges (rev acc), rest)
        end
      else if Ascii.eqb c (ascii_of_nat 92) then None
      else
        match rest with
        | String "-" (String d rest') =>
            if Ascii.eqb d "]" then parse_class rest ((c, c) :: acc)
            else if Ascii.eqb d (ascii_of_nat 92) then None
            else parse_class rest' ((c, d) :: acc)
        | _ => parse_class rest ((c, c) :: acc)
        end
  end.

(** The name of a group, after [(]: [?P<name>]. *)
Fixpoint parse_name (s : string) (acc : string) : option (string * string) :=
  match s with
  | EmptyString => None
  | String c rest =>
      if Ascii.eqb c ">" then Some (acc, rest)
      else parse_name rest (acc ++ String c EmptyString)
  end.

Definition parse_group_header (s : string) : option (string * string) :=
  match s with
  | String "?" (String "P" (String "<" rest)) => parse_name rest EmptyString
  | _ => None
  end.

(** A sequence of items, to the end of the pattern or to the bracket that
    closes the group. *)
Fixpoint parse_seq (fuel : nat) (in_group : bool) (p : string)
  : option (list regex * string) :=
  match fuel with
  | O => None
  | S fuel =>
      let continue (item : regex) (rest : string) :=
        match parse_seq fuel in_group rest with
        | Some (items, rest) => Some (item :: items, rest)
        | None => None
        end in
      let anchor (item : regex) (rest : string) :=
        if starts_with_quantifier rest then None else continue item rest in
      let repeated (cs : charset) (rest : string) :=
        match parse_quantifier rest with
        | Some (lo, hi, rest) => continue (Chars cs lo hi) rest
        | None => None
        end in
      match p with
      | EmptyString => if in_group then None else Some ([], EmptyString)
      | String ")" rest => if in_group then Some ([], rest) else None
      | String "^" rest => anchor Bol rest
      | String "$" rest => anchor Eol rest
      | String "(" rest =>
          match parse_group_header rest with
          | Some (name, rest) =>
              match parse_seq fuel true rest with
              | Some (items, rest) => anchor (Group name items) rest
              | None => None
              end
          | None => None
          end
      | String "[" rest =>
          match rest with
          | String "^" _ => None
          | _ =>
              match parse_class rest [] with
              | Some (cs, rest) => repeated cs rest
              | None => None
              end
          end
      | String c rest =>
          if existsb (Ascii.eqb c)
               ["."; "|"; "*"; "+"; "?"; "{"; "}"; "]"]%char
             || Ascii.eqb c (ascii_of_nat 92)
          then None
          else repeated (Single c) rest
      end
  end.

Definition parse_regex (pattern : string) : option (list regex) :=
  match parse_seq (S (String.length pattern)) false pattern with
  | Some (items, _) => Some items
  | None => None
  end.

(** The number of leading characters of [s] in [cs], at most [hi]. *)
Fixpoint run_length (cs : charset) (hi : option nat) (s : string) : nat :=
  match hi with
  | Some O => O
  | _ =>
      match s with
      | String c rest =>
          if in_charset cs c
          then S (run_length cs (option_map Nat.pred hi) rest)
          else O
      | EmptyString => O
      end
  end.

Fixpoint skip (n : nat) (s : string) : string :=
  match n, s with
  | S n, String _ rest => skip n rest
  | _, _ => s
  end.

(** The first of [n], [n - 1], ..., [lo] repetitions for which the rest of
    the pattern matches. *)
Fixpoint try_counts {A : Type} (lo n : nat) (attempt : nat -> option A)
  : option A :=
  if (n <? lo)%nat then None
  else
    match attempt n with
    | Some found => Some found
    | None =>
        match n with
        | O => None
        | S n' => try_counts lo n' attempt
        end
    end.

Definition at_end (s : string) : bool :=
  match s with
  | EmptyString => true
  | String c EmptyString => Ascii.eqb c (ascii_of_nat 10)
  | _ => false
  end.

Definition groups : Type := list (string * option string).

(** Match one item at the head of [s], which starts at offset [pos] of the
    subject, then the rest of the pattern [k]. *)
Fixpoint match_item (r : regex) (s : string) (pos : nat) (g : groups)
  (k : string -> nat -> groups -> option groups) {struct r} : option groups :=
  match r with
  | Bol => if (pos =? 0)%nat then k s pos g else None
  | Eol => if at_end s then k s pos g else None
  | Chars cs lo hi =>
      try_counts lo (run_length cs hi s)
        (fun n => k (skip n s) (pos + n)%nat g)
  | Group name items =>
      (fix match_seq (items : list regex) (s' : string) (pos' : nat)
           (g : groups) (k : string -> nat -> groups -> option groups)
           {struct items} : option groups :=
         match items with
         | [] => k s' pos' g
         | item :: rest =>
             match_item item s' pos' g
               (fun s'' pos'' g => match_seq rest s'' pos'' g k)
         end) items s pos g
        (fun s' pos' g =>
           k s' pos' (dict_set name (Some (substring 0 (pos' - pos) s)) g))
  end.

Fixpoint match_seq (items : list regex) (s : string) (pos : nat) (g : groups)
  (k : string -> nat -> groups -> option groups) : option groups :=
  match items with
  | [] => k s pos g
  | item :: rest =>
      match_item item s pos g (fun s' pos' g => match_seq rest s' pos' g k)
  end.

(** [re.match(pattern, s)] followed by [groupdict()], for a pattern in the
    syntax above; [None] also for a pattern outside it. *)
Definition re_match (pattern s : string) : option groups :=
  match parse_regex pattern with
  | Some items => match_seq items s 0%nat [] (fun _ _ g => Some g)
  | None => None
  end.

(** [re.fullmatch(pattern, s)]: the match has to end where [s] ends, and
    the matcher backtracks until it does.  The program does not call it;
    it is what a pattern that matches the whole path means. *)
Definition re_fullmatch (pattern s : string) : option groups :=
  match parse_regex pattern with
  | Some items =>
      match_seq items s 0%nat []
        (fun rest _ g =>
           match rest with EmptyString => Some g | String _ _ => None end)
  | None => None
  end.

(** ** A reference platform

    One concrete platform, on which requests run from bytes to response:
    a JSON reader for objects, arrays, strings without escapes, integers
    and the three literals; the matcher above; the proleptic Gregorian
    calendar of [datetime]; the program's two date formats written with
    two-digit fields; and the zones named by the test-suite with their
    offsets of December 2024.  Outside these inputs the library functions
    do more than the platform models (escapes and fractions in JSON, signs
    and spaces in [int], one-digit date fields, bytes above 127, the other
    zones); there the platform answers as for a failure. *)

Module Reference.

(** the digits of an integer of any size *)
Fixpoint int_digits (s : string) (acc : Z) : Z * string :=
  match s with
  | String c rest =>
      if is_digit c
      then int_digits rest (10 * acc + (Z.of_nat (nat_of_ascii c) - 48))
      else (acc, s)
  | EmptyString => (acc, s)
  end.

(** [int] of a text of digits; it refuses more than 4300 of them, the
    limit of the conversion from text. *)
Definition int (s : string) : option Z :=
  match s with
  | EmptyString => None
  | _ =>
      if starts_with_digit s && (String.length s <=? 4300)%nat then
        match int_digits s 0 with
        | (n, EmptyString) => Some n
        | _ => None
        end
      else None
  end.

Definition decode (bytes : list Byte.byte) : string :=
  string_of_list_ascii
    (filter (fun c => (nat_of_ascii c <? 128)%nat)
            (map ascii_of_byte bytes)).

Definition is_space (c : ascii) : bool :=
  existsb (Nat.eqb (nat_of_ascii c)) [32; 9; 10; 13]%nat.

Fixpoint skip_space (s : string) : string :=
  match s with
  | String c rest => if is_space c then skip_space rest else s
  | EmptyString => s
  end.

(** The characters of a string up to its closing quote. *)
Fixpoint read_string (s : string) (acc : string) : option (string * string) :=
  match s with
  | EmptyString => None
  | String c rest =>
      if (nat_of_ascii c =? 34)%nat then Some (acc, rest)
      else if ((nat_of_ascii c =? 92) || (nat_of_ascii c <? 32))%nat then None
      else read_string rest (acc ++ String c EmptyString)
  end.

(** An integer: digits without a leading zero, and no fraction or
    exponent after them. *)
Definition read_digits (s : string) : option (Z * string) :=
  if starts_with_digit s then
    let (n, rest) := parse_digits s 0 in
    let leading_zero :=
      match s with
      | String "0" (String d _) => is_digit d
      | _ => false
      end in
    let fraction :=
      match rest with
      | String c _ => existsb (Ascii.eqb c) ["."; "e"; "E"]%char
      | EmptyString => false
      end in
    if leading_zero || fraction then None else Some (Z.of_nat n, rest)
  else None.

Fixpoint read_value (fuel : nat) (s : string) : option (Json * string) :=
  match fuel with
  | O => None
  | S fuel =>
      match skip_space s with
      | String "{" rest =>
          match skip_space rest with
          | String "}" rest => Some (JDict [], rest)
          | rest => read_members fuel rest []
          end
      | String "[" rest =>
          match skip_space rest with
          | String "]" rest => Some (JList [], rest)
          | rest => read_elements fuel rest []
          end
      | String "n" (String "u" (String "l" (String "l" rest))) =>
          Some (JNull, rest)
      | String "t" (String "r" (String "u" (String "e" rest))) =>
          Some (JBool true, rest)
      | String "f" (String "a" (String "l" (String "s" (String "e" rest)))) =>
          Some (JBool false, rest)
      | String "-" rest =>
          match read_digits rest with
          | Some (n, rest) => Some (JInt (- n), rest)
          | None => None
          end
      | String c rest =>
          if (nat_of_ascii c =? 34)%nat then
            match read_string rest EmptyString with
            | Some (text, rest) => Some (JStr text, rest)
            | None => None
            end
          else
            match read_digits (String c rest) with
            | Some (n, rest) => Some (JInt n, rest)
            | None => None
            end
      | EmptyString => None
      end
  end

with read_members (fuel : nat) (s : string) (acc : list (string * Json))
  : option (Json * string) :=
  match fuel with
  | O => None
  | S fuel =>
      match s with
      | String q rest =>
          if (nat_of_ascii q =? 34)%nat then
            match read_string rest EmptyString with
            | Some (key, rest) =>
                match skip_space rest with
                | String ":" rest =>
                    match read_value fuel rest with
                    | Some (v, rest) =>
                        let acc := dict_set key v acc in
                        match skip_space rest with
                        | String "," rest =>
                            read_members fuel (skip_space rest) acc
                        | String "}" rest => Some (JDict acc, rest)
                        | _ => None
                        end
                    | None => None
                    end
                | _ => None
                end
            | None => None
            end
          else None
      | EmptyString => None
      end
  end

with read_elements (fuel : nat) (s : string) (acc : list Json)
  : option (Json * string) :=
  match fuel with
  | O => None
  | S fuel =>
      match read_value fuel s with
      | Some (v, rest) =>
          match skip_space rest with
          | String "," rest => read_elements fuel rest (v :: acc)
          | String "]" rest => Some (JList (rev (v :: acc)), rest)
          | _ => None
          end
      | None => None
      end
  end.

Definition json_loads (s : string) : option Json :=
  match read_value (2 * String.length s + 2) s with
  | Some (v, rest) =>
      match skip_space rest with
      | EmptyString => Some v
      | _ => None
      end
  | None => None
  end.

(** The calendar, as [datetime] computes it. *)

Definition is_leap (year : Z) : bool :=
  (year mod 4 =? 0) && (negb (year mod 100 =? 0) || (year mod 400 =? 0)).

Definition days_before_year (year : Z) : Z :=
  let y := year - 1 in y * 365 + y / 4 - y / 100 + y / 400.

Definition days_in_month (year month : Z) : Z :=
  match month with
  | 2 => if is_leap year then 29 else 28
  | 4 | 6 | 9 | 11 => 30
  | _ => 31
  end.

Definition days_before_month (year month : Z) : Z :=
  nth (Z.to_nat month) [0; 0; 31; 59; 90; 120; 151; 181; 212; 243; 273; 304; 334] 0
  + (if (2 <? month) && is_leap year then 1 else 0).

Definition ymd2ord (year month day : Z) : Z :=
  days_before_year year + days_before_month year month + day.

Definition ord2ymd (n : Z) : Z * Z * Z :=
  let n := n - 1 in
  let n400 := n / 146097 in
  let n := n mod 146097 in
  let n100 := n / 36524 in
  let n := n mod 36524 in
  let n4 := n / 1461 in
  let n := n mod 1461 in
  let n1 := n / 365 in
  let n := n mod 365 in
  let year := n400 * 400 + 1 + n100 * 100 + n4 * 4 + n1 in
  if (n1 =? 4) || (n100 =? 4) then (year - 1, 12, 31)
  else
    let leapyear := (n1 =? 3) && (negb (n4 =? 24) || (n100 =? 3)) in
    let month := Z.shiftr (n + 50) 5 in
    let preceding :=
      days_before_month 1 month
      + (if (2 <? month) && leapyear then 1 else 0) in
    if n <? preceding then
      let month := month - 1 in
      let preceding :=
        preceding
        - (days_in_month 1 month
           + (if (month =? 2) && leapyear then 1 else 0)) in
      (year, month, n - preceding + 1)
    else (year, month, n - preceding + 1).

(** The number written by the [len] characters of [s] from [i], all of
    them digits. *)
Definition field (s : string) (i len : nat) : option Z :=
  let text := substring i len s in
  if (String.length text =? len)%nat && starts_with_digit text then
    match parse_digits text 0 with
    | (n, EmptyString) => Some (Z.of_nat n)
    | _ => None
    end
  else None.

Definition lower (c : ascii) : ascii :=
  let n := nat_of_ascii c in
  if ((65 <=? n) && (n <=? 90))%nat then ascii_of_nat (n + 32) else c.

Definition lower_string (s : string) : string :=
  string_of_list_ascii (map lower (list_ascii_of_string s)).

Definition make_datetime (year month day hour minute second : Z) : option Z :=
  if (1 <=? year) && (1 <=? month) && (month <=? 12)
     && (1 <=? day) && (day <=? days_in_month year month)
     && (hour <? 24) && (minute <? 60) && (second <? 60)
  then Some ((ymd2ord year month day - 1) * 86400
             + hour * 3600 + minute * 60 + second)
  else None.

(** ["%I:%M%p %Y-%m-%d"] on [HH:MMpp YYYY-MM-DD] *)
Definition strptime_12h (s : string) : option Z :=
  if (String.length s =? 18)%nat
     && String.eqb (substring 2 1 s) ":"
     && String.eqb (substring 7 1 s) " "
     && String.eqb (substring 12 1 s) "-"
     && String.eqb (substring 15 1 s) "-"
  then
    match field s 0 2, field s 3 2, field s 8 4, field s 13 2, field s 16 2 with
    | Some hour, Some minute, Some year, Some month, Some day =>
        let half := lower_string (substring 5 2 s) in
        if (1 <=? hour) && (hour <=? 12) then
          if String.eqb half "am"
          then make_datetime year month day (hour mod 12) minute 0
          else if String.eqb half "pm"
          then make_datetime year month day (hour mod 12 + 12) minute 0
          else None
        else None
    | _, _, _, _, _ => None
    end
  else None.

(** ["%m.%d.%Y %H:%M:%S"] on [MM.DD.YYYY HH:MM:SS] *)
Definition strptime_24h (s : string) : option Z :=
  if (String.length s =? 19)%nat
     && String.eqb (substring 2 1 s) "."
     && String.eqb (substring 5 1 s) "."
     && String.eqb (substring 10 1 s) " "
     && String.eqb (substring 13 1 s) ":"
     && String.eqb (substring 16 1 s) ":"
  then
    match field s 0 2, field s 3 2, field s 6 4,
          field s 11 2, field s 14 2, field s 17 2 with
    | Some month, Some day, Some year, Some hour, Some minute, Some second =>
        make_datetime year month day hour minute second
    | _, _, _, _, _, _ => None
    end
  else None.

Definition strptime (s format : string) : option Z :=
  if String.eqb format "%I:%M%p %Y-%m-%d" then strptime_12h s
  else if String.eqb format "%m.%d.%Y %H:%M:%S" then strptime_24h s
  else None.

Definition pad4 (n : Z) : string :=
  (if n <? 1000 then "0" else EmptyString)
    ++ (if n <? 100 then "0" else EmptyString) ++ pad2 n.

Definition date_str (dt : datetime) : string :=
  let '(year, month, day) := ord2ymd (wall dt / 86400 + 1) in
  pad4 year ++ "-" ++ pad2 month ++ "-" ++ pad2 day.

(** [OUTPUT_DATETIME_FORMAT], the only format the program prints with. *)
Definition strftime (dt : datetime) (format : string) : string :=
  let seconds := wall dt mod 86400 in
  date_str dt ++ " " ++ pad2 (seconds / 3600) ++ ":"
    ++ pad2 (seconds / 60 mod 60) ++ ":" ++ pad2 (seconds mod 60).

Definition fixed_offset (hours : Z) : tzinfo :=
  {| utcoffset := fun _ => hours * 3600;
     offset_at_utc := fun _ => hours * 3600 |}.

Definition ZoneInfo (name : string) : option tzinfo :=
  if String.eqb name "UTC" then Some (fixed_offset 0)
  else if String.eqb name "Europe/Moscow" then Some (fixed_offset 3)
  else if String.eqb name "Asia/Novosibirsk" then Some (fixed_offset 7)
  else if String.eqb name "America/Argentina/Buenos_Aires"
  then Some (fixed_offset (-3))
  else None.

(** The platform at 2024-12-20 00:19:00 UTC, with buffers of a gibibyte
    at most. *)
Definition platform : Platform :=
  Build_Platform int decode json_loads re_match ZoneInfo
    ((ymd2ord 2024 12 20 - 1) * 86400 + 19 * 60)
    strptime strftime date_str 1073741824.

End Reference.

(** ** Requests of the test-suite *)

(** [post_request(path, body)] of [tests.py]: the body is
    [json.dumps(body)], or [json.dumps('')] when there is none, and the
    client states its length. *)
Definition post_text (path text : string) : Request :=
  {| REQUEST_METHOD := "POST";
     PATH_INFO := path;
     CONTENT_LENGTH := Some (str_int (Z.of_nat (String.length text)));
     wsgi_input := list_byte_of_string text;
     path_params := None |}.

Definition post_request (path : string) (body : option Json) : Request :=
  post_text path
    (json_dumps match body with
                | Some b => b
                | None => JStr EmptyString
                end).

(** [render_request(path)] of [tests.py] *)
Definition render_request (path : string) : Request :=
  {| REQUEST_METHOD := "GET";
     PATH_INFO := path;
     CONTENT_LENGTH := None;
     wsgi_input := [];
     path_params := None |}.

(** The body of [test_get_dates_diff] and its two dates. *)
Definition tests_dates (start finish : Json) : Json :=
  JDict [("start", start); ("end", finish)].

Definition moscow : Json :=
  JDict [("date", JStr "12.20.2024 00:19:00"); ("tz", JStr "Europe/Moscow")].

Definition novosibirsk : Json :=
  JDict [("date", JStr "12:19am 2024-12-20"); ("tz", JStr "Asia/Novosibirsk")].

(** The application on the reference platform. *)
Definition serve (request : Request) : list nat * result Response :=
  handle_request Reference.platform (create_application Reference.platform)
    request.

(** ** Vocabulary of the properties *)

Definition is_dict (json : Json) : bool :=
  match json with
  | JDict _ => true
  | _ => false
  end.

(** An item the first loop of the binder gets past, for class [c]: its key
    is declared, and its value is a string or an object that binds to the
    declared type. *)
Definition bindable (c : ModelClass) (item : string * Json) : Prop :=
  exists attr_type,
    dict_get (fst item) (annotations c) = Some attr_type
    /\ ((exists s, snd item = JStr s)
        \/ is_dict (snd item) = true
           /\ exists bound, model_from_json attr_type (snd item) = Ok bound).

(** A list occurs in [json], at the top or under any chain of keys. *)
Fixpoint has_list (json : Json) : bool :=
  match json with
  | JList _ => true
  | JDict items =>
      (fix any (items : list (string * Json)) : bool :=
         match items with
         | [] => false
         | (_, v) :: rest => has_list v || any rest
         end) items
  | _ => false
  end.

(** Every object nested in [json] under a declared key sits under a field
    whose declared type is a model class, all the way down. *)
Fixpoint nested_in_models (cls : ModelClass) (json : Json) : bool :=
  match json with
  | JDict items =>
      (fix all (items : list (string * Json)) : bool :=
         match items with
         | [] => true
         | (key, v) :: rest =>
             match v with
             | JDict _ =>
                 match dict_get key (annotations cls) with
                 | Some (Tmodel c) => nested_in_models c v
                 | Some _ => false
                 | None => true
                 end
             | _ => true
             end && all rest
         end) items
  | _ => true
  end.

(** A route accepts a request: the two tests of the loop in
    [Router.handle_request]. *)
Definition accepts (P : Platform) (route : Route) (request : Request) : bool :=
  String.eqb (method route) (get_method request)
  && match regex_match P (path_regex route) (get_path request) with
     | Some _ => true
     | None => false
     end.

(** Follows the spec's words: a route matches a request when its method
    is the request's and its pattern matches the full path. *)
Definition matches_full_path (route : Route) (request : Request) : bool :=
  String.eqb (method route) (get_method request)
  && match re_fullmatch (path_regex route) (get_path request) with
     | Some _ => true
     | None => false
     end.

(** The routes whose handler was called, and what the dispatcher gave
    back. *)
Definition called (run : list nat * result Response) : list nat := fst run.

Definition outcome (run : list nat * result Response) : result Response :=
  snd run.

(** Follows the spec's words: a number of seconds written [H:MM:SS]. *)
Definition H_MM_SS (seconds : Z) : string :=
  str_int (seconds / 3600) ++ ":" ++ pad2 (seconds / 60 mod 60) ++ ":"
    ++ pad2 (seconds mod 60).


(** Induction on JSON values, with the hypothesis for the values of an
    object. *)
Section Json_induction.
Variable Q : Json -> Prop.
Hypothesis Q_null : Q JNull.
Hypothesis Q_bool : forall b, Q (JBool b).
Hypothesis Q_int : forall n, Q (JInt n).
Hypothesis Q_float : forall repr, Q (JFloat repr).
Hypothesis Q_str : forall s, Q (JStr s).
Hypothesis Q_list : forall items, Q (JList items).
Hypothesis Q_dict :
  forall items, Forall (fun kv => Q (snd kv)) items -> Q (JDict items).

Fixpoint Json_values_ind (json : Json) : Q json :=
  match json with
  | JNull => Q_null
  | JBool b => Q_bool b
  | JInt n => Q_int n
  | JFloat repr => Q_float repr
  | JStr s => Q_str s
  | JList items => Q_list items
  | JDict items =>
      Q_dict items
        ((fix values (items : list (string * Json))
            : Forall (fun kv => Q (snd kv)) items :=
            match items with
            | [] => Forall_nil _
            | (key, v) :: rest =>
                Forall_cons (key, v) (Json_values_ind v) (values rest)
            end) items)
  end.
End Json_induction.

(** ** The WSGI callable *)

(** [str.encode()]: UTF-8, one byte for a character below 128 and two for
    the others. *)
Definition encode_char (c : ascii) : list Byte.byte :=
  let n := nat_of_ascii c in
  if (n <? 128)%nat then [byte_of_ascii c]
  else [byte_of_ascii (ascii_of_nat (192 + n / 64));
        byte_of_ascii (ascii_of_nat (128 + n mod 64))].

Fixpoint encode (s : string) : list Byte.byte :=
  match s with
  | EmptyString => []
  | String c rest => (encode_char c ++ encode rest)%list
  end.

(** A call of the response writer: the status line and the headers. *)
Definition writer_call : Type := (string * list (string * string))%type.

(** [Response.send_response]: the call it makes of the writer and the
    chunks it returns. *)
Definition send_response (response : Response)
  : writer_call * list (list Byte.byte) :=
  ((status response, headers response), [encode (body response)]).

(** [Request(environ)]: no path parameters yet. *)
Definition Request_init (environ : Request) : Request :=
  {| REQUEST_METHOD := REQUEST_METHOD environ;
     PATH_INFO := PATH_INFO environ;
     CONTENT_LENGTH := CONTENT_LENGTH environ;
     wsgi_input := wsgi_input environ;
     path_params := None |}.

(** The callable [create_application] returns: the calls of the writer
    and the chunks of the body. *)
Definition application (P : Platform) (environ : Request)
  : result (list writer_call * list (list Byte.byte)) :=
  let request := Request_init environ in
  response <- outcome (handle_request P (create_application P) request) ;;
  let (call, chunks) := send_response response in
  Ok ([call], chunks).

(** What a field of declared type [attr_type] holds after a binding: the
    first loop stores any string, whatever the type, and an object only as
    an instance of the declared model class; the second loop stores [None]
    for an optional field. *)
Definition field_holds (attr_type : pytype) (v : value) : Prop :=
  match attr_type with
  | Tstr => exists s, v = VStr s
  | Tstr_or_None => v = VNone \/ exists s, v = VStr s
  | Tmodel c => (exists s, v = VStr s) \/ exists attrs, v = VInstance c attrs
  end.

(** A handler's outcome that the dispatcher answers with 200 or 400: a
    response with status 200, or the structured error with code 400. *)
Definition answerable (o : result Response) : Prop :=
  match o with
  | Ok response =>
      status response = "200 OK"
      /\ exists content_type,
          headers response = [("Content-Type", content_type)]
  | Raise (ApplicationError _ code) => code = 400
  | Raise _ => False
  end.

(** The same, with any other exception allowed as well. *)
Definition well_coded (o : result Response) : Prop :=
  match o with
  | Raise (ApplicationError _ _) | Ok _ => answerable o
  | Raise _ => True
  end.

(** What the first loop of the binder stores in an instance of class [c]:
    only declared attributes, each a string or an instance of the model
    class the attribute is declared with. *)
Definition stored (c : ModelClass) (attrs : list (string * value)) : Prop :=
  forall key v,
    dict_get key attrs = Some v ->
    exists attr_type,
      dict_get key (annotations c) = Some attr_type
      /\ ((exists s, v = VStr s)
          \/ exists c' attrs', attr_type = Tmodel c' /\ v = VInstance c' attrs').

Definition is_model (attr_type : pytype) : bool :=
  match attr_type with
  | Tmodel _ => true
  | _ => false
  end.

(** The request with other bytes waiting on [wsgi.input]. *)
Definition with_input (request : Request) (bytes : list Byte.byte) : Request :=
  {| REQUEST_METHOD := REQUEST_METHOD request;
     PATH_INFO := PATH_INFO request;
     CONTENT_LENGTH := CONTENT_LENGTH request;
     wsgi_input := bytes;
     path_params := path_params request |}.

(** A computation whose structured errors all carry the code 400. *)
Definition coded_400 {A : Type} (a : result A) : Prop :=
  forall message code, a = Raise (ApplicationError message code) -> code = 400.

(** A computation that fails with the structured error of code 400 or not
    at all. *)
Definition only_structured {A : Type} (a : result A) : Prop :=
  forall e, a = Raise e -> exists message, e = ApplicationError message 400.

(** The response of the dispatcher to the structured error with code
    400. *)
Definition bad_request (message : string) : Response :=
  {| body := json_dumps (JDict [("reason", JStr message)]);
     status := "400 Bad Request";
     headers := [("Content-Type", "application/json")] |}.

Definition not_found : Response :=
  {| body := "not found";
     status := "404 Not Found";
     headers := [("Content-Type", "application/json")] |}.

(** ** Vocabulary of the route patterns *)

(** The class [[a-zA-Z_]] of the zone routes. *)
Definition zone_chars : charset :=
  Ranges [("a", "z"); ("A", "Z"); ("_", "_")]%char.

(** The longest run of zone characters at the head of [s]: its length,
    its text and what follows it. *)
Definition word (s : string) : nat := run_length zone_chars None s.

Definition the_word (s : string) : string := substring 0 (word s) s.

Definition after_word (s : string) : string := skip (word s) s.

(** A string of zone characters only. *)
Fixpoint is_word (s : string) : bool :=
  match s with
  | EmptyString => true
  | String c rest => in_charset zone_chars c && is_word rest
  end.

(** The items of a literal character, of a segment [/(?P<name>[a-zA-Z_]{lo,})]
    and of a pattern made of such segments up to [$]. *)
Definition literal (c : ascii) : regex := Chars (Single c) 1 (Some 1%nat).

Fixpoint segments (segs : list (string * nat)) : list regex :=
  match segs with
  | [] => [Eol]
  | (name, lo) :: more =>
      literal "/" :: Group name [Chars zone_chars lo None] :: segments more
  end.

(** What a pattern of segments matches, read off the string: a slash, a
    word of at least [lo] characters taken whole, and so on to the end. *)
Fixpoint match_segments (segs : list (string * nat)) (s : string) (g : groups)
  : option groups :=
  match segs with
  | [] => if at_end s then Some g else None
  | (name, lo) :: more =>
      match s with
      | String "/" rest =>
          if (word rest <? lo)%nat then None
          else match_segments more (after_word rest)
                 (dict_set name (Some (the_word rest)) g)
      | _ => None
      end
  end.

(** The items of a literal text up to [$], and what they match. *)
Fixpoint literals (text : string) : list regex :=
  match text with
  | EmptyString => [Eol]
  | String c rest => literal c :: literals rest
  end.

Fixpoint match_literals (text s : string) : bool :=
  match text with
  | EmptyString => at_end s
  | String c rest =>
      match s with
      | String d s' => Ascii.eqb d c && match_literals rest s'
      | EmptyString => false
      end
  end.

(** The path made of [words], each after a slash, and the zone name the
    handlers make of them. *)
Fixpoint path_of_words (words : list string) : string :=
  match words with
  | [] => EmptyString
  | w :: more => "/" ++ w ++ path_of_words more
  end.

Definition zone_path (words : list string) : string :=
  String.concat "/" words.

(** A word that a segment [(name, lo)] takes. *)
Definition fits (seg : string * nat) (w : string) : Prop :=
  is_word w = true /\ (snd seg <= String.length w)%nat.

(** The groups after the segments have taken the words. *)
Fixpoint captured (segs : list (string * nat)) (words : list string)
  (g : groups) : groups :=
  match segs, words with
  | (name, _) :: segs, w :: words =>
      captured segs words (dict_set name (Some w) g)
  | _, _ => g
  end.

(** The segments of the three zone routes. *)
Definition bare_zone : list (string * nat) := [("timezone", 3%nat)].

Definition continent_city : list (string * nat) :=
  [("continent", 1%nat); ("city", 1%nat)].

Definition continent_country_city : list (string * nat) :=
  [("continent", 1%nat); ("country", 1%nat); ("city", 1%nat)].

Definition zone_routes : list (list (string * nat)) :=
  [bare_zone; continent_city; continent_country_city].

(** The paths written like those the GET routes are made for: the root,
    or the words of a zone route after slashes; in both cases a newline
    may end the path, which [$] lets pass. *)
Definition found_path (path : string) : Prop :=
  (exists final, at_end final = true /\ path = "/" ++ final)
  \/ exists segs words final,
      In segs zone_routes
      /\ Forall2 fits segs words
      /\ at_end final = true
      /\ path = path_of_words words ++ final.

(** Which route of [create_application] accepts a method and a path, by
    its index, as read off the patterns. *)
Definition route_accepts (i : nat) (method path : string) : bool :=
  match i with
  | 0%nat => String.eqb "GET" method && match_literals "/" path
  | 1%nat =>
      String.eqb "GET" method
      && match match_segments continent_country_city path [] with
         | Some _ => true
         | None => false
         end
  | 2%nat =>
      String.eqb "GET" method
      && match match_segments continent_city path [] with
         | Some _ => true
         | None => false
         end
  | 3%nat =>
      String.eqb "GET" method
      && match match_segments bare_zone path [] with
         | Some _ => true
         | None => false
         end
  | 4%nat => String.eqb "POST" method && match_literals "/api/v1/time" path
  | 5%nat => String.eqb "POST" method && match_literals "/api/v1/date" path
  | 6%nat => String.eqb "POST" method && match_literals "/api/v1/datediff" path
  | _ => false
  end.

(** * Properties *)

(** ** Dictionaries *)

Lemma dict_get_set_same {A : Type} (key : string) (v : A) d :
  dict_get key (dict_set key v d) = Some v.
Proof.
  induction d as [|[k w] d IH]; simpl.
  - now rewrite String.eqb_refl.
  - destruct (String.eqb key k) eqn:E; simpl; rewrite E; auto.
Qed.

Lemma dict_get_set_other {A : Type} (key k : string) (v : A) d :
  key <> k -> dict_get key (dict_set k v d) = dict_get key d.
Proof.
  intros Hne. induction d as [|[k' w] d IH]; simpl.
  - destruct (String.eqb key k) eqn:E; auto.
    apply String.eqb_eq in E. contradiction.
  - destruct (String.eqb k k') eqn:E; simpl.
    + apply String.eqb_eq in E. subst k'.
      destruct (String.eqb key k) eqn:E'; auto.
      apply String.eqb_eq in E'. contradiction.
    + now rewrite IH.
Qed.

Lemma dict_get_in_keys {A : Type} (key : string) (d : list (string * A)) :
  In key (dict_keys d) -> dict_get key d <> None.
Proof.
  induction d as [|[k w] d IH]; simpl; [tauto|].
  intros [->|Hin].
  - now rewrite String.eqb_refl.
  - destruct (String.eqb key k); [discriminate | auto].
Qed.

Lemma dict_get_some_in {A : Type} (key : string) (v : A) d :
  dict_get key d = Some v -> In (key, v) d.
Proof.
  induction d as [|[k w] d IH]; simpl; [discriminate|].
  destruct (String.eqb key k) eqn:E.
  - apply String.eqb_eq in E. intros [= ->]. left. now subst.
  - auto.
Qed.

Lemma existsb_eqb_in (key : string) (keys : list string) :
  existsb (String.eqb key) keys = true <-> In key keys.
Proof.
  rewrite existsb_exists. split.
  - intros (k & Hin & E). apply String.eqb_eq in E. now subst.
  - intros Hin. exists key. split; [assumption | apply String.eqb_refl].
Qed.

(** ** The binder, loop by loop *)

Lemma consume_nil f model : consume f [] model = Ok model.
Proof. reflexivity. Qed.

Lemma consume_cons f key v rest model :
  consume f ((key, v) :: rest) model =
  (ann <- instance_annotations model ;;
   match dict_get key ann with
   | None => Raise (ApplicationError_ ("unexpected param provided: " ++ key))
   | Some attr_type =>
       match v with
       | JStr s =>
           model <- setattr model key (VStr s) ;; consume f rest model
       | JDict _ =>
           bound <- f attr_type v ;;
           model <- setattr model key bound ;;
           consume f rest model
       | JList _ =>
           Raise (ApplicationError_ ("list in json is not supported: " ++ key))
       | _ =>
           Raise (ApplicationError_ ("unexpected type of json param: " ++ key))
       end
   end).
Proof. reflexivity. Qed.

Lemma model_from_json_dict cls items :
  model_from_json cls (JDict items) =
  (model <- new cls ;;
   model <- consume model_from_json items model ;;
   keys <- class_annotations cls ;;
   complete (dict_keys keys) model).
Proof. reflexivity. Qed.


(** One step of the first loop that went well: what it stored. *)
Lemma consume_cons_ok f key v rest c attrs model :
  consume f ((key, v) :: rest) (VInstance c attrs) = Ok model ->
  exists attr_type bound,
    dict_get key (annotations c) = Some attr_type
    /\ ((exists s, v = JStr s /\ bound = VStr s)
        \/ is_dict v = true /\ f attr_type v = Ok bound)
    /\ consume f rest (VInstance c (dict_set key bound attrs)) = Ok model.
Proof.
  rewrite consume_cons. simpl.
  destruct (dict_get key (annotations c)) as [attr_type|]; [|discriminate].
  destruct v; simpl; try discriminate.
  - intros H. exists attr_type, (VStr s). eauto 6.
  - destruct (f attr_type (JDict items)) as [bound|e] eqn:E; simpl;
      [|discriminate].
    intros H. exists attr_type, bound. auto.
Qed.

Lemma consume_instance f items c attrs model :
  consume f items (VInstance c attrs) = Ok model ->
  exists attrs', model = VInstance c attrs'.
Proof.
  revert attrs. induction items as [|[key v] rest IH]; intros attrs.
  - rewrite consume_nil. intros [= <-]. eauto.
  - intros H. apply consume_cons_ok in H as (ty & bound & _ & _ & H). eauto.
Qed.

Lemma consume_app f xs ys model :
  consume f (xs ++ ys) model =
  (model <- consume f xs model ;; consume f ys model).
Proof.
  revert model. induction xs as [|[key v] xs IH]; intros model.
  - reflexivity.
  - simpl app. rewrite !consume_cons.
    destruct (instance_annotations model) as [ann|]; simpl; [|reflexivity].
    destruct (dict_get key ann); [|reflexivity].
    destruct v; try reflexivity.
    + destruct (setattr model key (VStr s)); simpl; [apply IH | reflexivity].
    + destruct (f p (JDict items)) as [bound|]; simpl; [|reflexivity].
      destruct (setattr model key bound); simpl; [apply IH | reflexivity].
Qed.

Lemma consume_ok_keys_declared f items c attrs model :
  consume f items (VInstance c attrs) = Ok model ->
  forall key, In key (dict_keys items) -> dict_get key (annotations c) <> None.
Proof.
  revert attrs. induction items as [|[k v] rest IH]; intros attrs H key Hin.
  - destruct Hin.
  - apply consume_cons_ok in H as (ty & bound & Hty & _ & H).
    destruct Hin as [<-|Hin]; [simpl; congruence | eauto].
Qed.

(** The first loop gets through exactly the objects whose items are all
    bindable. *)
Lemma consume_ok_iff c items attrs :
  (exists model, consume model_from_json items (VInstance c attrs) = Ok model)
  <-> Forall (bindable c) items.
Proof.
  revert attrs. induction items as [|[key v] rest IH]; intros attrs.
  - split; [constructor | intros _; now exists (VInstance c attrs)].
  - split.
    + intros [model H].
      apply consume_cons_ok in H as (ty & bound & Hty & Hbound & H).
      constructor.
      * exists ty. split; [assumption|].
        destruct Hbound as [(s & -> & _)|[Hd Hb]]; simpl; eauto.
      * apply (IH (dict_set key bound attrs)). eauto.
    + intros Hall. apply Forall_cons_iff in Hall as [(ty & Hty & Hv) Hrest].
      simpl in Hty, Hv. rewrite consume_cons.
      cbn [instance_annotations bind]. rewrite Hty.
      destruct Hv as [(s & ->)|(Hd & bound & Hb)].
      * cbn [setattr bind]. now apply IH.
      * destruct v; try discriminate. rewrite Hb.
        cbn [setattr bind]. now apply IH.
Qed.

Lemma complete_instance keys c attrs model :
  complete keys (VInstance c attrs) = Ok model ->
  exists attrs', model = VInstance c attrs'.
Proof.
  revert attrs. induction keys as [|key rest IH]; intros attrs; simpl.
  - intros [= <-]. eauto.
  - destruct (has_value (VInstance c attrs) key); [apply IH|].
    destruct (dict_get key (annotations c)) as [ty|]; [|discriminate].
    destruct (permits_None ty); [apply IH | discriminate].
Qed.

(** A successful binding returns an instance of the class asked for. *)
Lemma model_from_json_ok_instance cls json model :
  model_from_json cls json = Ok model ->
  exists c attrs, cls = Tmodel c /\ model = VInstance c attrs.
Proof.
  destruct json; destruct cls; simpl; try discriminate.
  - destruct items as [|[key v] rest]; discriminate.
  - destruct (consume model_from_json items (VInstance c [])) as [m|] eqn:E;
      simpl; [|discriminate].
    apply consume_instance in E as [attrs ->].
    intros H. apply complete_instance in H as [attrs' ->]. eauto.
Qed.

Lemma model_from_json_never_None cls json model :
  model_from_json cls json = Ok model -> model <> VNone.
Proof.
  intros H. apply model_from_json_ok_instance in H as (c & attrs & _ & ->).
  discriminate.
Qed.

Lemma has_value_setattr c attrs k v key :
  v <> VNone ->
  has_value (VInstance c (dict_set k v attrs)) key =
  String.eqb key k || has_value (VInstance c attrs) key.
Proof.
  intros Hv. unfold has_value, getattr.
  destruct (String.eqb key k) eqn:E.
  - apply String.eqb_eq in E. subst k. rewrite dict_get_set_same.
    destruct v; [contradiction | reflexivity | reflexivity].
  - rewrite dict_get_set_other; [reflexivity|].
    intros ->. now rewrite String.eqb_refl in E.
Qed.

Lemma has_value_set_None c attrs k key :
  has_value (VInstance c attrs) k = false ->
  has_value (VInstance c (dict_set k VNone attrs)) key =
  has_value (VInstance c attrs) key.
Proof.
  intros Hk. destruct (String.eqb key k) eqn:E.
  - apply String.eqb_eq in E. subst k. rewrite Hk.
    unfold has_value, getattr. now rewrite dict_get_set_same.
  - unfold has_value, getattr. rewrite dict_get_set_other; [reflexivity|].
    intros ->. now rewrite String.eqb_refl in E.
Qed.

(** After the first loop a field has a value exactly when the object had
    its key (or the instance had the value before). *)
Lemma consume_has_value items c attrs model :
  consume model_from_json items (VInstance c attrs) = Ok model ->
  forall key,
    has_value model key =
    existsb (String.eqb key) (dict_keys items)
    || has_value (VInstance c attrs) key.
Proof.
  revert attrs. induction items as [|[k v] rest IH]; intros attrs H key.
  - rewrite consume_nil in H. injection H as <-. reflexivity.
  - apply consume_cons_ok in H as (ty & bound & _ & Hbound & H).
    rewrite (IH _ H key), has_value_setattr.
    + simpl. now destruct (String.eqb key k), (existsb _ _).
    + destruct Hbound as [(s & _ & ->)|[_ Hbound]]; [discriminate|].
      eapply model_from_json_never_None; eauto.
Qed.

Lemma consume_untouched f items c attrs model key :
  ~ In key (dict_keys items) ->
  consume f items (VInstance c attrs) = Ok model ->
  getattr model key = dict_get key attrs.
Proof.
  revert attrs. induction items as [|[k v] rest IH]; intros attrs Hnot H.
  - rewrite consume_nil in H. injection H as <-. reflexivity.
  - apply consume_cons_ok in H as (ty & bound & _ & _ & H).
    simpl in Hnot. rewrite (IH _ (fun Hin => Hnot (or_intror Hin)) H).
    apply dict_get_set_other. intros ->. apply Hnot. now left.
Qed.

(** A string supplied under a key is what the first loop leaves there. *)
Lemma consume_stores_string f items c attrs model key s :
  NoDup (dict_keys items) ->
  In (key, JStr s) items ->
  consume f items (VInstance c attrs) = Ok model ->
  getattr model key = Some (VStr s).
Proof.
  revert attrs. induction items as [|[k v] rest IH]; intros attrs Hnd Hin H.
  - destruct Hin.
  - simpl in Hnd. apply NoDup_cons_iff in Hnd as [Hk Hnd].
    apply consume_cons_ok in H as (ty & bound & _ & Hbound & H).
    destruct Hin as [[= -> ->]|Hin].
    + rewrite (consume_untouched _ _ _ _ _ _ Hk H).
      destruct Hbound as [(s' & [= <-] & ->)|[Hd _]]; [|discriminate].
      apply dict_get_set_same.
    + eauto.
Qed.

Lemma annotations_get c key attr_type :
  In (key, attr_type) (annotations c) ->
  dict_get key (annotations c) = Some attr_type.
Proof.
  destruct c; simpl; intros H;
    repeat (destruct H as [[= <- <-]|H]; [reflexivity|]); destruct H.
Qed.

Lemma permits_None_inv attr_type :
  permits_None attr_type = true -> attr_type = Tstr_or_None.
Proof. destruct attr_type; simpl; congruence. Qed.

(** The second loop stops at the first declared field that has no value
    and no default. *)
Lemma complete_missing before key after c attrs attr_type :
  (forall k, In k before ->
     has_value (VInstance c attrs) k = true
     \/ dict_get k (annotations c) = Some Tstr_or_None) ->
  has_value (VInstance c attrs) key = false ->
  dict_get key (annotations c) = Some attr_type ->
  permits_None attr_type = false ->
  complete (before ++ key :: after)%list (VInstance c attrs) =
  Raise (ApplicationError ("missing required param: " ++ key) 400).
Proof.
  intros Hbefore Hkey Hty Hreq. revert attrs Hbefore Hkey.
  induction before as [|k before IH]; intros attrs Hbefore Hkey; simpl.
  - now rewrite Hkey, Hty, Hreq.
  - destruct (has_value (VInstance c attrs) k) eqn:Hk.
    + apply IH; [|assumption]. intros k' Hin. apply Hbefore. now right.
    + destruct (Hbefore k (or_introl eq_refl)) as [Hv|Hopt]; [congruence|].
      rewrite Hopt. simpl. apply IH.
      * intros k' Hin. rewrite has_value_set_None by assumption.
        apply Hbefore. now right.
      * now rewrite has_value_set_None.
Qed.

(** When every declared field has a value or a default, the second loop
    succeeds: it writes [None] where there was no value and nothing else. *)
Lemma complete_ok keys c attrs :
  (forall k, In k keys ->
     has_value (VInstance c attrs) k = true
     \/ dict_get k (annotations c) = Some Tstr_or_None) ->
  exists attrs',
    complete keys (VInstance c attrs) = Ok (VInstance c attrs')
    /\ (forall k v, dict_get k attrs = Some v -> dict_get k attrs' = Some v)
    /\ (forall k, In k keys -> has_value (VInstance c attrs) k = false ->
                  dict_get k attrs' = Some VNone).
Proof.
  revert attrs. induction keys as [|key keys IH]; intros attrs Hkeys; simpl.
  - exists attrs. repeat split; auto. intros k [].
  - destruct (has_value (VInstance c attrs) key) eqn:Hkey.
    + destruct (IH attrs) as (attrs' & Hrun & Hkeep & Hnone).
      { intros k Hin. apply Hkeys. now right. }
      exists attrs'. repeat split; auto.
      intros k [<-|Hin] Hk; [congruence | auto].
    + destruct (Hkeys key (or_introl eq_refl)) as [Hv|Hopt]; [congruence|].
      rewrite Hopt. simpl.
      destruct (IH (dict_set key VNone attrs)) as (attrs' & Hrun & Hkeep & Hnone).
      { intros k Hin. rewrite has_value_set_None by assumption.
        apply Hkeys. now right. }
      exists attrs'. split; [assumption|]. split.
      * intros k v Hget. apply Hkeep.
        destruct (String.eqb k key) eqn:E.
        -- apply String.eqb_eq in E. subst k.
           unfold has_value, getattr in Hkey. rewrite Hget in Hkey.
           destruct v; try discriminate. apply dict_get_set_same.
        -- rewrite dict_get_set_other; [assumption|].
           intros ->. now rewrite String.eqb_refl in E.
      * intros k [<-|Hin] Hk.
        -- apply Hkeep, dict_get_set_same.
        -- apply Hnone; [assumption|]. now rewrite has_value_set_None.
Qed.

(** ** Unknown keys *)

(** C7, as the claim states it, fails: here the object has the undeclared
    key [bogus], and the error names the declared key [tz], whose list the
    first loop met before it. *)
Lemma unexpected_key_behind_a_list_is_not_named :
  In "bogus" (dict_keys [("tz", JList []); ("bogus", JStr "x")])
  /\ dict_get "bogus" (annotations TimezoneModel) = None
  /\ model_from_json (Tmodel TimezoneModel)
       (JDict [("tz", JList []); ("bogus", JStr "x")])
     = Raise (ApplicationError "list in json is not supported: tz" 400)
  /\ model_from_json (Tmodel TimezoneModel)
       (JDict [("tz", JList []); ("bogus", JStr "x")])
     <> Raise (ApplicationError ("unexpected param provided: " ++ "bogus") 400).
Proof.
  repeat split; simpl; auto. discriminate.
Qed.

(** C7 (amended).  An object with a key that the model class does not
    declare never binds; and when the first loop has consumed every key
    before the undeclared one, binding fails with the structured 400 error
    'unexpected param provided: <key>'. *)
Theorem unexpected_key_rejected
  (cls : ModelClass) (items : list (string * Json)) (key : string) :
  In key (dict_keys items) ->
  dict_get key (annotations cls) = None ->
  (forall model, model_from_json (Tmodel cls) (JDict items) <> Ok model)
  /\ (forall before v after model,
        items = (before ++ (key, v) :: after)%list ->
        consume model_from_json before (VInstance cls []) = Ok model ->
        model_from_json (Tmodel cls) (JDict items) =
        Raise (ApplicationError ("unexpected param provided: " ++ key) 400)).
Proof.
  intros Hin Hundeclared. split.
  - intros model H. rewrite model_from_json_dict in H. simpl in H.
    destruct (consume model_from_json items (VInstance cls [])) eqn:E;
      [|discriminate].
    eapply consume_ok_keys_declared in E; eauto.
  - intros before v after model -> Hbefore.
    rewrite model_from_json_dict. cbn [new bind].
    rewrite consume_app, Hbefore. cbn [bind].
    apply consume_instance in Hbefore as [attrs ->].
    rewrite consume_cons. cbn [instance_annotations bind].
    now rewrite Hundeclared.
Qed.

Lemma unexpected_key_rejected_witness :
  (forall model,
      model_from_json (Tmodel DateModel)
        (JDict [("date", JStr "x"); ("bogus", JStr "y")]) <> Ok model)
  /\ (forall before v after model,
        [("date", JStr "x"); ("bogus", JStr "y")]
        = (before ++ ("bogus", v) :: after)%list ->
        consume model_from_json before (VInstance DateModel []) = Ok model ->
        model_from_json (Tmodel DateModel)
          (JDict [("date", JStr "x"); ("bogus", JStr "y")]) =
        Raise (ApplicationError ("unexpected param provided: " ++ "bogus") 400)).
Proof.
  apply (unexpected_key_rejected DateModel
           [("date", JStr "x"); ("bogus", JStr "y")] "bogus").
  - simpl. auto.
  - reflexivity.
Defined.

(** ** Missing fields *)

(** C8, as the claim states it, fails: with an empty object both fields of
    [DatesDiffModel] are missing and the error names [start], not [end];
    and a [DateModel] object without [date] whose [tz] is a number fails
    on [tz]. *)
Lemma missing_field_is_not_always_the_one_named :
  dict_get "end" (annotations DatesDiffModel) = Some (Tmodel DateModel)
  /\ permits_None (Tmodel DateModel) = false
  /\ model_from_json (Tmodel DatesDiffModel) (JDict [])
     = Raise (ApplicationError "missing required param: start" 400)
  /\ model_from_json (Tmodel DatesDiffModel) (JDict [])
     <> Raise (ApplicationError ("missing required param: " ++ "end") 400)
  /\ model_from_json (Tmodel DateModel) (JDict [("tz", JInt 5)])
     = Raise (ApplicationError "unexpected type of json param: tz" 400).
Proof.
  repeat split. discriminate.
Qed.

(** C8 (amended).  For an object whose keys the first loop has all
    consumed: if a declared field without default is missing, and every
    field declared before it is supplied or optional, binding fails with
    the structured 400 error 'missing required param: <field>'; if no
    field without default is missing, binding succeeds, every missing
    optional field is [None], everything the first loop stored is kept,
    and so a field supplied with a string holds that string. *)
Theorem completeness_pass
  (cls : ModelClass) (items : list (string * Json)) (model : value) :
  consume model_from_json items (VInstance cls []) = Ok model ->
  (forall before key attr_type after,
      annotations cls = (before ++ (key, attr_type) :: after)%list ->
      permits_None attr_type = false ->
      ~ In key (dict_keys items) ->
      (forall k t, In (k, t) before ->
                   permits_None t = true \/ In k (dict_keys items)) ->
      model_from_json (Tmodel cls) (JDict items) =
      Raise (ApplicationError ("missing required param: " ++ key) 400))
  /\ ((forall k t, In (k, t) (annotations cls) ->
                   permits_None t = true \/ In k (dict_keys items)) ->
      exists bound,
        model_from_json (Tmodel cls) (JDict items) = Ok bound
        /\ (forall k, dict_get k (annotations cls) = Some Tstr_or_None ->
                      ~ In k (dict_keys items) ->
                      getattr bound k = Some VNone)
        /\ (forall k v, getattr model k = Some v -> getattr bound k = Some v)
        /\ (forall k s, NoDup (dict_keys items) -> In (k, JStr s) items ->
                        getattr bound k = Some (VStr s))).
Proof.
  intros Hconsume.
  pose proof (consume_has_value _ _ _ _ Hconsume) as Hvalue.
  destruct (consume_instance _ _ _ _ _ Hconsume) as [attrs ->].
  assert (Hsupplied : forall k, In k (dict_keys items) ->
                                has_value (VInstance cls attrs) k = true).
  { intros k Hin. rewrite Hvalue. apply existsb_eqb_in in Hin.
    now rewrite Hin. }
  assert (Habsent : forall k, ~ In k (dict_keys items) ->
                              has_value (VInstance cls attrs) k = false).
  { intros k Hnot. rewrite Hvalue.
    destruct (existsb (String.eqb k) (dict_keys items)) eqn:E.
    - apply existsb_eqb_in in E. contradiction.
    - reflexivity. }
  split.
  - intros before key attr_type after Hsplit Hreq Hmissing Hbefore.
    rewrite model_from_json_dict. simpl. rewrite Hconsume. simpl.
    rewrite Hsplit. unfold dict_keys. rewrite map_app. simpl.
    apply complete_missing with (attr_type := attr_type); auto.
    + intros k Hin. apply in_map_iff in Hin as ([k' t] & <- & Hin).
      destruct (Hbefore _ _ Hin) as [Hopt|Hsup]; [right | left; auto].
      apply permits_None_inv in Hopt. subst t.
      apply annotations_get. rewrite Hsplit. apply in_or_app. now left.
    + apply annotations_get. rewrite Hsplit. apply in_or_app. right. now left.
  - intros Hall.
    destruct (complete_ok (dict_keys (annotations cls)) cls attrs)
      as (attrs' & Hrun & Hkeep & Hnone).
    { intros k Hin. apply in_map_iff in Hin as ([k' t] & <- & Hin).
      destruct (Hall _ _ Hin) as [Hopt|Hsup]; [right | left; auto].
      apply permits_None_inv in Hopt. subst t. now apply annotations_get. }
    exists (VInstance cls attrs').
    rewrite model_from_json_dict. simpl. rewrite Hconsume. simpl.
    split; [assumption|]. split; [|split].
    + intros k Hopt Hnot. apply Hnone; auto.
      apply dict_get_some_in in Hopt.
      apply in_map_iff. now exists (k, Tstr_or_None).
    + intros k v. simpl. apply Hkeep.
    + intros k s Hnd Hin. simpl. apply Hkeep.
      apply (consume_stores_string _ _ _ _ _ _ _ Hnd Hin Hconsume).
Qed.

Lemma completeness_pass_witness :
  (forall before key attr_type after,
      annotations DateModel = (before ++ (key, attr_type) :: after)%list ->
      permits_None attr_type = false ->
      ~ In key (dict_keys [("tz", JStr "UTC")]) ->
      (forall k t, In (k, t) before ->
                   permits_None t = true
                   \/ In k (dict_keys [("tz", JStr "UTC")])) ->
      model_from_json (Tmodel DateModel) (JDict [("tz", JStr "UTC")]) =
      Raise (ApplicationError ("missing required param: " ++ key) 400))
  /\ ((forall k t, In (k, t) (annotations DateModel) ->
                   permits_None t = true
                   \/ In k (dict_keys [("tz", JStr "UTC")])) ->
      exists bound,
        model_from_json (Tmodel DateModel) (JDict [("tz", JStr "UTC")])
        = Ok bound
        /\ (forall k, dict_get k (annotations DateModel) = Some Tstr_or_None ->
                      ~ In k (dict_keys [("tz", JStr "UTC")]) ->
                      getattr bound k = Some VNone)
        /\ (forall k v,
               getattr (VInstance DateModel [("tz", VStr "UTC")]) k = Some v ->
               getattr bound k = Some v)
        /\ (forall k s, NoDup (dict_keys [("tz", JStr "UTC")]) ->
                        In (k, JStr s) [("tz", JStr "UTC")] ->
                        getattr bound k = Some (VStr s))).
Proof.
  apply (completeness_pass DateModel [("tz", JStr "UTC")]
           (VInstance DateModel [("tz", VStr "UTC")])).
  reflexivity.
Defined.

(** ** Lists *)

Lemma has_list_cons key v rest :
  has_list (JDict ((key, v) :: rest)) = has_list v || has_list (JDict rest).
Proof. reflexivity. Qed.

Lemma nested_in_models_cons c key v rest :
  nested_in_models c (JDict ((key, v) :: rest)) =
  match v with
  | JDict _ =>
      match dict_get key (annotations c) with
      | Some (Tmodel c') => nested_in_models c' v
      | Some _ => false
      | None => true
      end
  | _ => true
  end && nested_in_models c (JDict rest).
Proof. reflexivity. Qed.

(** What binds holds no list. *)
Lemma bound_has_no_list json :
  forall cls model, model_from_json cls json = Ok model -> has_list json = false.
Proof.
  induction json using Json_values_ind; intros cls model Hbound;
    try reflexivity.
  - destruct cls; discriminate.
  - destruct (model_from_json_ok_instance _ _ _ Hbound) as (c & ? & -> & _).
    rewrite model_from_json_dict in Hbound. cbn [new bind] in Hbound.
    destruct (consume model_from_json items (VInstance c [])) as [m|] eqn:E;
      [clear Hbound | discriminate].
    revert E. generalize (@nil (string * value)).
    induction items as [|[key v] rest IH]; intros attrs E; [reflexivity|].
    apply Forall_cons_iff in H as [Hv Hrest]. simpl in Hv.
    apply consume_cons_ok in E as (ty & bound & _ & Hbound & E).
    rewrite has_list_cons, (IH Hrest _ E), orb_false_r.
    destruct Hbound as [(s & -> & _)|[_ Hbound]]; [reflexivity | eauto].
Qed.

Lemma complete_raises_structured keys c attrs e :
  (forall k, In k keys -> dict_get k (annotations c) <> None) ->
  complete keys (VInstance c attrs) = Raise e ->
  exists message, e = ApplicationError message 400.
Proof.
  revert attrs. induction keys as [|key keys IH]; intros attrs Hdecl; simpl.
  - discriminate.
  - assert (Hkeys : forall k, In k keys -> dict_get k (annotations c) <> None)
      by (intros k Hin; apply Hdecl; now right).
    destruct (has_value (VInstance c attrs) key); [now apply IH|].
    destruct (dict_get key (annotations c)) as [ty|] eqn:E.
    + destruct (permits_None ty); [now apply IH|].
      intros [= <-]. eexists. reflexivity.
    + exfalso. apply (Hdecl key); [now left | assumption].
Qed.

(** With nested objects only under model fields, every failure of the
    binder is the structured error. *)
Lemma nested_in_models_raises_structured json :
  forall c e,
    nested_in_models c json = true ->
    is_dict json = true ->
    model_from_json (Tmodel c) json = Raise e ->
    exists message, e = ApplicationError message 400.
Proof.
  induction json using Json_values_ind; intros c e Hnested Hdict Hraise;
    try discriminate.
  rewrite model_from_json_dict in Hraise. cbn [new bind] in Hraise.
  destruct (consume model_from_json items (VInstance c [])) as [m|e'] eqn:E.
  - destruct (consume_instance _ _ _ _ _ E) as [? ->].
    cbn [bind class_annotations] in Hraise.
    apply complete_raises_structured in Hraise; [assumption|].
    intros k. apply dict_get_in_keys.
  - cbn [bind] in Hraise. injection Hraise as ->. clear Hdict.
    revert E. generalize (@nil (string * value)).
    induction items as [|[key v] rest IH]; intros attrs E; [discriminate|].
    apply Forall_cons_iff in H as [Hv Hrest]. simpl in Hv.
    rewrite nested_in_models_cons in Hnested.
    apply andb_prop in Hnested as [Hhere Hnested].
    rewrite consume_cons in E. cbn [instance_annotations bind] in E.
    destruct (dict_get key (annotations c)) as [ty|];
      [|injection E as <-; eexists; reflexivity].
    destruct v; try (injection E as <-; eexists; reflexivity).
    + cbn [setattr bind] in E. eauto.
    + destruct ty as [| |c']; try discriminate.
      destruct (model_from_json (Tmodel c') (JDict items)) as [bound|e'] eqn:F.
      * cbn [setattr bind] in E. eauto.
      * cbn [bind] in E. injection E as <-. eauto.
Qed.

(** C3, as the claim states it, fails: a list as the top-level value makes
    [json.items()] fail, which is not the structured error, and the request
    leaves the dispatcher as an exception. *)
Lemma top_level_list_is_not_a_structured_error :
  has_list (JList []) = true
  /\ model_from_json (Tmodel TimezoneModel) (JList []) = Raise AttributeError
  /\ serve (post_request "/api/v1/time" (Some (JList [])))
     = ([4%nat], Raise AttributeError).
Proof. repeat split. Qed.

(** C3 (amended).  A JSON object that holds a list, as the value of a key
    or deeper inside nested objects, never binds; and when every nested
    object sits under a field declared as a model class, the failure is
    the structured 400 error, whatever the declared type of the field the
    list is under. *)
Theorem list_in_object_rejected
  (cls : ModelClass) (items : list (string * Json)) :
  has_list (JDict items) = true ->
  (forall model, model_from_json (Tmodel cls) (JDict items) <> Ok model)
  /\ (nested_in_models cls (JDict items) = true ->
      exists message,
        model_from_json (Tmodel cls) (JDict items) =
        Raise (ApplicationError message 400)).
Proof.
  intros Hlist.
  assert (Hfails : forall model,
             model_from_json (Tmodel cls) (JDict items) <> Ok model).
  { intros model Hbound. apply bound_has_no_list in Hbound. congruence. }
  split; [assumption|]. intros Hnested.
  destruct (model_from_json (Tmodel cls) (JDict items)) as [model|e] eqn:E.
  - now destruct (Hfails model).
  - destruct (nested_in_models_raises_structured _ _ _ Hnested eq_refl E)
      as [message ->].
    now exists message.
Qed.

Lemma list_in_object_rejected_witness :
  (forall model,
      model_from_json (Tmodel DatesDiffModel)
        (JDict [("start", JDict [("date", JList [JInt 1])])]) <> Ok model)
  /\ (nested_in_models DatesDiffModel
        (JDict [("start", JDict [("date", JList [JInt 1])])]) = true ->
      exists message,
        model_from_json (Tmodel DatesDiffModel)
          (JDict [("start", JDict [("date", JList [JInt 1])])]) =
        Raise (ApplicationError message 400)).
Proof.
  apply (list_in_object_rejected DatesDiffModel
           [("start", JDict [("date", JList [JInt 1])])]).
  reflexivity.
Defined.

(** ** An absent and a null time zone *)

Lemma get_parsed_date_of_attrs P c attrs date zone_name :
  dict_get "date" attrs = Some date ->
  dict_get "tz" attrs = Some zone_name ->
  get_parsed_date P (VInstance c attrs) =
  match first_parsed P date supported_datime_formats with
  | None =>
      Raise (ApplicationError_
               ("invalid datetime format: " ++ format_value date))
  | Some dt =>
      timezone <- get_parsed_tz P (TimezoneModel_init zone_name) ;;
      Ok {| wall := dt; tz := Some timezone |}
  end.
Proof.
  intros Hdate Hzone. unfold get_parsed_date, getattr.
  now rewrite Hdate, Hzone.
Qed.

Lemma get_parsed_tz_None P zone :
  ZoneInfo P "UTC" = Some zone ->
  get_parsed_tz P (TimezoneModel_init VNone) = Ok zone.
Proof. intros Hutc. unfold get_parsed_tz. simpl. now rewrite Hutc. Qed.

(** C4, as the claim states it, fails: without [tz] the time endpoint
    answers 200 with the time in UTC; with [tz] null the binder rejects the
    body and the answer is 400. *)
Lemma null_tz_is_rejected_where_absent_tz_is_UTC :
  outcome (serve (post_request "/api/v1/time" (Some (JDict []))))
  = Ok {| body := json_dumps (JDict [("message", JStr "2024-12-20 00:19:00")]);
          status := "200 OK";
          headers := [("Content-Type", "application/json")] |}
  /\ model_from_json (Tmodel TimezoneModel) (JDict [("tz", JNull)])
     = Raise (ApplicationError "unexpected type of json param: tz" 400)
  /\ outcome (serve (post_request "/api/v1/time" (Some (JDict [("tz", JNull)]))))
     = Ok {| body :=
               json_dumps
                 (JDict [("reason", JStr "unexpected type of json param: tz")]);
             status := "400 Bad Request";
             headers := [("Content-Type", "application/json")] |}.
Proof. repeat split. Qed.

(** C4 (amended).  On a platform that knows the zone UTC: a body without
    [tz] binds with [tz] set to [None], which resolves to UTC, and the
    time and date endpoints answer 200 with the clock read in UTC; a
    [DateModel] object without [tz] puts its date in UTC.  A [tz] that is
    JSON null is not treated as absent: once the keys before it are
    consumed, binding fails with the structured 400 error
    'unexpected type of json param: tz'. *)
Theorem absent_tz_is_UTC_and_null_tz_is_rejected
  (P : Platform) (zone : tzinfo) :
  ZoneInfo P "UTC" = Some zone ->
  (forall request,
      get_body P request = Ok (JDict []) ->
      model_from_json (Tmodel TimezoneModel) (JDict [])
      = Ok (VInstance TimezoneModel [("tz", VNone)])
      /\ get_parsed_tz P (VInstance TimezoneModel [("tz", VNone)]) = Ok zone
      /\ get_timezone_time P request
         = Ok {| body :=
                   json_dumps
                     (JDict [("message",
                              JStr (strftime P (datetime_now P zone)
                                      OUTPUT_DATETIME_FORMAT))]);
                 status := "200 OK";
                 headers := [("Content-Type", "application/json")] |}
      /\ get_timezone_date P request
         = Ok {| body :=
                   json_dumps
                     (JDict [("message",
                              JStr (date_str P (datetime_now P zone)))]);
                 status := "200 OK";
                 headers := [("Content-Type", "application/json")] |})
  /\ (forall date parsed,
        first_parsed P (VStr date) supported_datime_formats = Some parsed ->
        exists bound,
          model_from_json (Tmodel DateModel) (JDict [("date", JStr date)])
          = Ok bound
          /\ getattr bound "tz" = Some VNone
          /\ get_parsed_date P bound = Ok {| wall := parsed; tz := Some zone |})
  /\ (forall cls before after model,
        dict_get "tz" (annotations cls) <> None ->
        consume model_from_json before (VInstance cls []) = Ok model ->
        model_from_json (Tmodel cls)
          (JDict (before ++ ("tz", JNull) :: after))
        = Raise (ApplicationError "unexpected type of json param: tz" 400)).
Proof.
  intros Hutc. split; [|split].
  - intros request Hbody.
    assert (Htz : get_parsed_tz P (VInstance TimezoneModel [("tz", VNone)])
                  = Ok zone) by now apply get_parsed_tz_None.
    repeat split; [assumption | |].
    + unfold get_timezone_time. rewrite Hbody. cbn [bind].
      change (model_from_json (Tmodel TimezoneModel) (JDict []))
        with (Ok (VInstance TimezoneModel [("tz", VNone)])).
      cbn [bind]. unfold get_str_datetime, get_datetime. rewrite Htz.
      reflexivity.
    + unfold get_timezone_date. rewrite Hbody. cbn [bind].
      change (model_from_json (Tmodel TimezoneModel) (JDict []))
        with (Ok (VInstance TimezoneModel [("tz", VNone)])).
      cbn [bind]. unfold get_datetime. rewrite Htz. reflexivity.
  - intros date parsed Hparsed.
    exists (VInstance DateModel [("date", VStr date); ("tz", VNone)]).
    split; [reflexivity|]. split; [reflexivity|].
    rewrite (get_parsed_date_of_attrs P _ _ (VStr date) VNone)
      by reflexivity.
    rewrite Hparsed, (get_parsed_tz_None P zone Hutc). reflexivity.
  - intros cls before after model Hdeclared Hbefore.
    rewrite model_from_json_dict. cbn [new bind].
    rewrite consume_app, Hbefore. cbn [bind].
    apply consume_instance in Hbefore as [attrs ->].
    rewrite consume_cons. cbn [instance_annotations bind].
    destruct (dict_get "tz" (annotations cls)); [reflexivity | contradiction].
Qed.

Lemma absent_tz_is_UTC_and_null_tz_is_rejected_witness :
  ZoneInfo Reference.platform "UTC" = Some (Reference.fixed_offset 0)
  /\ (forall cls before after model,
        dict_get "tz" (annotations cls) <> None ->
        consume model_from_json before (VInstance cls []) = Ok model ->
        model_from_json (Tmodel cls)
          (JDict (before ++ ("tz", JNull) :: after))
        = Raise (ApplicationError "unexpected type of json param: tz" 400)).
Proof.
  split; [reflexivity|].
  apply (absent_tz_is_UTC_and_null_tz_is_rejected Reference.platform
           (Reference.fixed_offset 0)).
  reflexivity.
Defined.

(** ** The dispatcher *)

Lemma handle_request_from_nil P n request :
  handle_request_from P n [] request =
  ([], Response_init "not found" 404 "application/json").
Proof. reflexivity. Qed.

Lemma handle_request_from_skip P n route rest request :
  accepts P route request = false ->
  handle_request_from P n (route :: rest) request =
  handle_request_from P (S n) rest request.
Proof.
  unfold accepts. simpl.
  destruct (String.eqb (method route) (get_method request)); simpl;
    [|reflexivity].
  destruct (regex_match P (path_regex route) (get_path request));
    [discriminate | reflexivity].
Qed.

Lemma handle_request_from_accept P n route rest request :
  accepts P route request = true ->
  exists groupdict,
    regex_match P (path_regex route) (get_path request) = Some groupdict
    /\ handle_request_from P n (route :: rest) request =
       ([n], dispatch (handler route (set_path_params request groupdict))).
Proof.
  unfold accepts. simpl.
  destruct (String.eqb (method route) (get_method request)); simpl;
    [|discriminate].
  destruct (regex_match P (path_regex route) (get_path request)) as [g|];
    [|discriminate].
  intros _. now exists g.
Qed.

Lemma handle_request_from_first P routes request :
  forall n,
    (exists route, In route routes /\ accepts P route request = true) ->
    exists i route groupdict,
      nth_error routes i = Some route
      /\ accepts P route request = true
      /\ (forall j earlier,
             (j < i)%nat -> nth_error routes j = Some earlier ->
             accepts P earlier request = false)
      /\ regex_match P (path_regex route) (get_path request) = Some groupdict
      /\ handle_request_from P n routes request =
         ([(n + i)%nat],
          dispatch (handler route (set_path_params request groupdict))).
Proof.
  induction routes as [|r rest IH]; intros n (route & Hin & Haccepts).
  - destruct Hin.
  - destruct (accepts P r request) eqn:Hr.
    + destruct (handle_request_from_accept P n r rest request Hr)
        as (g & Hg & Hrun).
      exists 0%nat, r, g. rewrite Nat.add_0_r.
      repeat split; auto. intros j earlier Hj. inversion Hj.
    + destruct Hin as [->|Hin]; [congruence|].
      destruct (IH (S n)) as (i & found & g & Hnth & Hacc & Hfirst & Hg & Hrun).
      { now exists route. }
      exists (S i), found, g.
      rewrite handle_request_from_skip by assumption.
      rewrite Nat.add_succ_r. repeat split; auto.
      intros [|j] earlier Hj Hearlier; simpl in Hearlier.
      * now injection Hearlier as <-.
      * apply (Hfirst j); [apply Nat.succ_lt_mono|]; assumption.
Qed.

(** An exception of the handler that is not an [ApplicationError] leaves
    the dispatcher as it came; the 500 response is built and dropped. *)
Lemma dispatch_unexpected e :
  is_ApplicationError e = false -> dispatch (Raise e) = Raise e.
Proof. destruct e; simpl; intros; congruence. Qed.

(** C5.  When some registered route accepts the request (its method is
    the request's and its pattern matches the path), the dispatcher calls
    exactly one handler: that of the first such route in registration
    order, with the groups of the match as path parameters. *)
Theorem first_matching_route_is_called
  (P : Platform) (routes : list Route) (request : Request) :
  (exists route, In route routes /\ accepts P route request = true) ->
  exists i route groupdict,
    nth_error routes i = Some route
    /\ accepts P route request = true
    /\ (forall j earlier,
           (j < i)%nat -> nth_error routes j = Some earlier ->
           accepts P earlier request = false)
    /\ regex_match P (path_regex route) (get_path request) = Some groupdict
    /\ called (handle_request P routes request) = [i]
    /\ outcome (handle_request P routes request) =
       dispatch (handler route (set_path_params request groupdict)).
Proof.
  intros Hsome.
  destruct (handle_request_from_first P routes request 0%nat Hsome)
    as (i & route & g & Hnth & Hacc & Hfirst & Hg & Hrun).
  exists i, route, g. unfold handle_request. rewrite Hrun.
  repeat split; auto.
Qed.

Lemma first_matching_route_is_called_witness :
  (exists route,
      In route (create_application Reference.platform)
      /\ accepts Reference.platform route (render_request "/Asia/Novosibirsk")
         = true)
  /\ exists i route groupdict,
      nth_error (create_application Reference.platform) i = Some route
      /\ accepts Reference.platform route (render_request "/Asia/Novosibirsk")
         = true
      /\ (forall j earlier,
             (j < i)%nat ->
             nth_error (create_application Reference.platform) j
             = Some earlier ->
             accepts Reference.platform earlier
               (render_request "/Asia/Novosibirsk") = false)
      /\ regex_match Reference.platform (path_regex route)
           (get_path (render_request "/Asia/Novosibirsk")) = Some groupdict
      /\ called (serve (render_request "/Asia/Novosibirsk")) = [i]
      /\ outcome (serve (render_request "/Asia/Novosibirsk")) =
         dispatch
           (handler route
              (set_path_params (render_request "/Asia/Novosibirsk") groupdict)).
Proof.
  assert (Hsome :
            exists route,
              In route (create_application Reference.platform)
              /\ accepts Reference.platform route
                   (render_request "/Asia/Novosibirsk") = true).
  { exists {| method := "GET";
              path_regex :=
                "^/(?P<continent>[a-zA-Z_]+)/(?P<city>[a-zA-Z_]+)$";
              handler := render_continent_city_time Reference.platform |}.
    split; [right; right; left; reflexivity | reflexivity]. }
  split; [exact Hsome|].
  exact (first_matching_route_is_called Reference.platform
           (create_application Reference.platform)
           (render_request "/Asia/Novosibirsk") Hsome).
Defined.

(** The two-segment path of the test-suite goes to the continent/city
    route, the third registered; the route of bare time zones, registered
    after it, does not accept the path. *)
Example two_segment_path_goes_to_continent_city :
  called (serve (render_request "/Asia/Novosibirsk")) = [2%nat]
  /\ option_map handler (nth_error (create_application Reference.platform) 2)
     = Some (render_continent_city_time Reference.platform)
  /\ option_map (fun route =>
                   accepts Reference.platform route
                     (render_request "/Asia/Novosibirsk"))
       (nth_error (create_application Reference.platform) 3)
     = Some false.
Proof. repeat split. Qed.

(** [$] also matches before a newline that ends the path, so the route of
    bare time zones accepts such a path. *)
Example final_newline_is_accepted :
  called (serve (render_request ("/UTC" ++ chr 10))) = [3%nat].
Proof. reflexivity. Qed.

(** Without the newline the pattern of the bare zone matches the whole
    path, and the patterns of the other routes do not. *)
Example zone_path_matches_one_route_in_full :
  map (fun route => matches_full_path route (render_request "/UTC"))
    (create_application Reference.platform)
  = [false; false; false; true; false; false; false].
Proof. reflexivity. Qed.

(** C6.  The claim does not hold of the code: for GET with the path
    [/UTC] and a newline after it (the request line [GET /UTC%0A]) no
    pattern of the seven routes matches the full path, so the pair matches
    no route; but [Router.handle_request] tests with [re.match], and the
    [$] that ends the pattern of the bare zone also matches before a final
    newline: the fourth route accepts the path, its handler is called with
    the zone [UTC], and the request is answered with the 200 page of the
    time, not with the 404 response 'not found'. *)
Theorem final_newline_path_is_answered_by_a_handler :
  forallb (fun route =>
             negb (matches_full_path route (render_request ("/UTC" ++ chr 10))))
    (create_application Reference.platform) = true
  /\ map (fun route =>
            accepts Reference.platform route
              (render_request ("/UTC" ++ chr 10)))
       (create_application Reference.platform)
     = [false; false; false; true; false; false; false]
  /\ called (serve (render_request ("/UTC" ++ chr 10))) = [3%nat]
  /\ outcome (serve (render_request ("/UTC" ++ chr 10)))
     = outcome (serve (render_request "/UTC"))
  /\ option_map status
       (match outcome (serve (render_request ("/UTC" ++ chr 10))) with
        | Ok response => Some response
        | Raise _ => None
        end)
     = Some "200 OK"
  /\ outcome (serve (render_request ("/UTC" ++ chr 10))) <> Ok not_found.
Proof. repeat split. discriminate. Qed.

(** C1.  The claim does not hold of the code: a request whose handler
    raises an exception other than [ApplicationError] (here the body is
    the JSON number 5, and [json.items()] fails) gets no response from
    [Router.handle_request]; the 'server error' response is built and then
    dropped by the [raise], and only the exception leaves the
    dispatcher. *)
Theorem unexpected_exception_leaves_without_response :
  called (serve (post_request "/api/v1/time" (Some (JInt 5)))) = [4%nat]
  /\ get_timezone_time Reference.platform
       (set_path_params (post_request "/api/v1/time" (Some (JInt 5))) [])
     = Raise AttributeError
  /\ outcome (serve (post_request "/api/v1/time" (Some (JInt 5))))
     = Raise AttributeError
  /\ outcome (serve (post_request "/api/v1/time" (Some (JInt 5))))
     <> Response_init "server error" 500 "application/json".
Proof. repeat split. discriminate. Qed.

(** ** Bodies that do not parse *)









(** The reason both requests get on the endpoint with required fields. *)
Example malformed_and_empty_body_reason :
  outcome (serve (post_text "/api/v1/datediff" "{"))
  = Ok {| body :=
            json_dumps (JDict [("reason", JStr "missing required param: start")]);
          status := "400 Bad Request";
          headers := [("Content-Type", "application/json")] |}
  /\ outcome (serve (post_text "/api/v1/datediff" EmptyString))
     = outcome (serve (post_text "/api/v1/datediff" "{")).
Proof. split; reflexivity. Qed.

(** ** Bodies that are JSON but no object *)





(** ** The difference of two dates *)

Lemma str_int_negative n :
  n < 0 -> exists rest, str_int n = String "-" rest.
Proof.
  destruct n as [|p|p]; try lia. intros _.
  eexists. unfold str_int. simpl. reflexivity.
Qed.

(** A negative difference is printed with its negative number of days in
    front. *)
Lemma timedelta_str_negative seconds :
  seconds < 0 -> exists rest, timedelta_str seconds = String "-" rest.
Proof.
  intros Hneg. unfold timedelta_str.
  assert (Hdays : seconds / 86400 < 0)
    by (apply Z.div_lt_upper_bound; lia).
  destruct (seconds / 86400 =? 0) eqn:E; [apply Z.eqb_eq in E; lia|].
  destruct (str_int_negative _ Hdays) as [rest ->].
  eexists. simpl. reflexivity.
Qed.

(** Within a day and not negative, a difference is printed as hours,
    minutes and seconds. *)
Lemma timedelta_str_within_a_day seconds :
  0 <= seconds < 86400 -> timedelta_str seconds = H_MM_SS seconds.
Proof.
  intros Hrange. unfold timedelta_str, H_MM_SS.
  rewrite Z.div_small, Z.mod_small by lia. simpl Z.eqb. cbv iota.
  rewrite Z.div_div by lia. reflexivity.
Qed.

(** C2, as the claim states it, fails: with the two dates of the
    test-suite the answer is '4:00:00', and with the same dates the other
    way round, start before end, it is '-1 day, 20:00:00'. *)
Lemma dates_diff_changes_when_dates_are_swapped :
  outcome (serve (post_request "/api/v1/datediff"
                    (Some (tests_dates moscow novosibirsk))))
  = Ok {| body := json_dumps (JDict [("message", JStr "4:00:00")]);
          status := "200 OK";
          headers := [("Content-Type", "application/json")] |}
  /\ outcome (serve (post_request "/api/v1/datediff"
                       (Some (tests_dates novosibirsk moscow))))
     = Ok {| body := json_dumps (JDict [("message", JStr "-1 day, 20:00:00")]);
             status := "200 OK";
             headers := [("Content-Type", "application/json")] |}.
Proof. split; reflexivity. Qed.

(** C2 (amended).  When the body binds and both of its dates resolve, the
    answer is 200 and its message is the difference start minus end, with
    its sign, as [str] prints a timedelta.  It is the absolute difference
    written H:MM:SS when start is not before end and less than a day after
    it; when start is before end the message begins with a minus sign. *)
Theorem dates_diff_is_signed
  (P : Platform) (request : Request) (json : Json)
  (model start finish : value) (a b : datetime) :
  get_body P request = Ok json ->
  model_from_json (Tmodel DatesDiffModel) json = Ok model ->
  getattr model "start" = Some start ->
  getattr model "end" = Some finish ->
  call_get_date_in_utc P start = Ok a ->
  call_get_date_in_utc P finish = Ok b ->
  get_dates_diff P request
  = Ok {| body :=
            json_dumps
              (JDict [("message", JStr (timedelta_str (instant a - instant b)))]);
          status := "200 OK";
          headers := [("Content-Type", "application/json")] |}
  /\ (0 <= instant a - instant b < 86400 ->
      timedelta_str (instant a - instant b)
      = H_MM_SS (Z.abs (instant a - instant b)))
  /\ (instant a < instant b ->
      exists rest, timedelta_str (instant a - instant b) = String "-" rest).
Proof.
  intros Hbody Hbound Hstart Hfinish Ha Hb. split; [|split].
  - unfold get_dates_diff. rewrite Hbody. cbn [bind]. rewrite Hbound.
    cbn [bind]. unfold get_diff. rewrite Hstart, Ha. cbn [bind].
    rewrite Hfinish, Hb. reflexivity.
  - intros Hrange. rewrite Z.abs_eq by lia.
    now apply timedelta_str_within_a_day.
  - intros Hbefore. apply timedelta_str_negative. lia.
Qed.

Lemma dates_diff_is_signed_witness :
  get_dates_diff Reference.platform
    (post_request "/api/v1/datediff" (Some (tests_dates moscow novosibirsk)))
  = Ok {| body := json_dumps (JDict [("message", JStr "4:00:00")]);
          status := "200 OK";
          headers := [("Content-Type", "application/json")] |}.
Proof.
  exact (proj1
           (dates_diff_is_signed Reference.platform
              (post_request "/api/v1/datediff"
                 (Some (tests_dates moscow novosibirsk)))
              (tests_dates moscow novosibirsk)
              (VInstance DatesDiffModel
                 [("start",
                   VInstance DateModel
                     [("date", VStr "12.20.2024 00:19:00");
                      ("tz", VStr "Europe/Moscow")]);
                  ("end",
                   VInstance DateModel
                     [("date", VStr "12:19am 2024-12-20");
                      ("tz", VStr "Asia/Novosibirsk")])])
              (VInstance DateModel
                 [("date", VStr "12.20.2024 00:19:00");
                  ("tz", VStr "Europe/Moscow")])
              (VInstance DateModel
                 [("date", VStr "12:19am 2024-12-20");
                  ("tz", VStr "Asia/Novosibirsk")])
              {| wall := (Reference.ymd2ord 2024 12 19 - 1) * 86400
                         + 21 * 3600 + 19 * 60;
                 tz := Some timezone_utc |}
              {| wall := (Reference.ymd2ord 2024 12 19 - 1) * 86400
                         + 17 * 3600 + 19 * 60;
                 tz := Some timezone_utc |}
              eq_refl eq_refl eq_refl eq_refl eq_refl eq_refl)).
Defined.

(** ** The checks of the test-suite *)

Example test_get_dates_diff_default_zone :
  outcome (serve (post_request "/api/v1/datediff"
                    (Some (tests_dates
                             (JDict [("date", JStr "12.20.2024 00:19:00")])
                             novosibirsk))))
  = Ok {| body := json_dumps (JDict [("message", JStr "7:00:00")]);
          status := "200 OK";
          headers := [("Content-Type", "application/json")] |}.
Proof. reflexivity. Qed.

Example test_get_dates_diff_negative :
  option_map status
    (match outcome
             (serve (post_request "/api/v1/datediff"
                       (Some (tests_dates
                                (JDict [("date", JStr "12.20.2024 00:19:00")])
                                (JDict [("date", JStr "12:19a 2024-12-20");
                                        ("tz", JStr "Asia/Novosibirsk")])))))
     with
     | Ok response => Some response
     | Raise _ => None
     end)
  = Some "400 Bad Request".
Proof. reflexivity. Qed.

Example test_render_negative :
  map (fun path =>
         match outcome (serve (render_request path)) with
         | Ok response => status response
         | Raise _ => EmptyString
         end)
      ["/asd"; "/Europe/Europe"; "/Europe/Europe/America"]
  = ["400 Bad Request"; "400 Bad Request"; "400 Bad Request"].
Proof. reflexivity. Qed.

(** * Further properties of the code *)

(** ** Error codes of the binder *)

Lemma complete_error_code keys model :
  coded_400 (complete keys model).
Proof.
  revert model. induction keys as [|key keys IH]; intros model message code;
    simpl; [discriminate|].
  destruct (has_value model key); [apply IH|].
  destruct model as [| |c attrs]; simpl; try discriminate.
  destruct (dict_get key (annotations c)) as [ty|]; [|discriminate].
  destruct (permits_None ty); [apply IH | now intros [= _ <-]].
Qed.

Lemma consume_error_code items :
  Forall (fun item => forall cls, coded_400 (model_from_json cls (snd item)))
    items ->
  forall model, coded_400 (consume model_from_json items model).
Proof.
  induction 1 as [|[key v] rest Hv _ IH]; intros model message code;
    [discriminate|].
  rewrite consume_cons.
  destruct model as [| |c attrs]; simpl; try discriminate.
  destruct (dict_get key (annotations c)) as [ty|]; [|now intros [= _ <-]].
  destruct v; try (now intros [= _ <-]).
  - apply IH.
  - destruct (model_from_json ty (JDict items)) as [bound|e] eqn:E; simpl.
    + apply IH.
    + intros [= ->]. apply (Hv ty message code E).
Qed.

(** Whatever the nesting, a structured error of the binder has code 400. *)
Lemma model_from_json_error_code json :
  forall cls, coded_400 (model_from_json cls json).
Proof.
  induction json using Json_values_ind; intros cls message code;
    try (destruct cls; discriminate).
  rewrite model_from_json_dict.
  destruct (new cls) as [model|e] eqn:Hnew; simpl;
    [|destruct cls; try discriminate; injection Hnew as <-; discriminate].
  destruct (consume model_from_json items model) as [m|e] eqn:E; simpl.
  - destruct cls; simpl; try discriminate. apply complete_error_code.
  - intros [= ->]. apply (consume_error_code items H model message code E).
Qed.

(** ** What the handlers can raise *)

Lemma coded_400_bind {A B : Type} (a : result A) (k : A -> result B) :
  coded_400 a -> (forall x, coded_400 (k x)) -> coded_400 (bind a k).
Proof.
  intros Ha Hk message code. destruct a as [x|e]; simpl.
  - apply Hk.
  - intros [= ->]. now apply (Ha message code).
Qed.

Lemma only_structured_bind {A B : Type} (a : result A) (k : A -> result B) :
  only_structured a -> (forall x, only_structured (k x)) ->
  only_structured (bind a k).
Proof.
  intros Ha Hk e. destruct a as [x|e']; simpl.
  - apply Hk.
  - intros [= ->]. now apply Ha.
Qed.

Lemma only_structured_coded_400 {A : Type} (a : result A) :
  only_structured a -> coded_400 a.
Proof.
  intros Ha message code H. destruct (Ha _ H) as [m [= _ <-]]. reflexivity.
Qed.

Lemma well_coded_bind {A : Type} (a : result A) (k : A -> result Response) :
  coded_400 a -> (forall x, well_coded (k x)) -> well_coded (bind a k).
Proof.
  intros Ha Hk. destruct a as [x|e]; simpl; [apply Hk|].
  destruct e; simpl; auto. now apply (Ha message code).
Qed.

Lemma answerable_bind {A : Type} (a : result A) (k : A -> result Response) :
  only_structured a -> (forall x, answerable (k x)) -> answerable (bind a k).
Proof.
  intros Ha Hk. destruct a as [x|e]; simpl; [apply Hk|].
  destruct (Ha e eq_refl) as [m ->]. reflexivity.
Qed.

Lemma answerable_well_coded o : answerable o -> well_coded o.
Proof. destruct o as [r|[]]; simpl; auto. Qed.

Lemma read_body_raises P request n e :
  read_body P request n = Raise e ->
  0 < n
  /\ (9223372036854775808 <= n /\ e = OverflowError
      \/ n < 9223372036854775808 /\ memory P < n /\ e = MemoryError).
Proof.
  unfold read_body.
  destruct (0 <? n) eqn:Hpos; [|discriminate]. apply Z.ltb_lt in Hpos.
  destruct (9223372036854775808 <=? n) eqn:Hsize.
  - apply Z.leb_le in Hsize. intros [= <-]. auto.
  - apply Z.leb_gt in Hsize.
    destruct (memory P <? n) eqn:Hmem; [|discriminate].
    apply Z.ltb_lt in Hmem. intros [= <-]. auto.
Qed.

(** [get_body] fails only before it parses: on a Content-Length that is
    no integer, or in the read that the length asks for. *)
Lemma get_body_raises P request e :
  get_body P request = Raise e ->
  e = ValueError \/ e = OverflowError \/ e = MemoryError.
Proof.
  unfold get_body.
  destruct (content_length P request) as [n|e'] eqn:Hn; cbn [bind].
  - destruct (read_body P request n) as [bytes|e'] eqn:Hread; cbn [bind];
      [discriminate|].
    intros [= ->].
    destruct (read_body_raises _ _ _ _ Hread) as [_ [[_ ->]|(_ & _ & ->)]];
      auto.
  - intros [= ->]. unfold content_length in Hn.
    destruct (CONTENT_LENGTH request) as [s|]; [|discriminate].
    destruct (String.eqb s EmptyString); [discriminate|].
    destruct (int P s); [discriminate|]. injection Hn as <-. auto.
Qed.

Lemma get_body_coded_400 P request : coded_400 (get_body P request).
Proof.
  intros message code H.
  apply get_body_raises in H as [H|[H|H]]; discriminate.
Qed.

Lemma get_datetime_only_structured P self :
  only_structured (get_datetime P self).
Proof.
  intros e. unfold get_datetime.
  destruct (get_parsed_tz P self); [discriminate|].
  intros [= <-]. now exists "invalid timezone".
Qed.

Lemma get_str_datetime_only_structured P self :
  only_structured (get_str_datetime P self).
Proof.
  apply only_structured_bind; [apply get_datetime_only_structured|].
  intros dt e. discriminate.
Qed.

Lemma get_path_param_only_structured request params key :
  only_structured (get_path_param (set_path_params request params) key).
Proof.
  intros e. unfold get_path_param. simpl.
  destruct (dict_get key params) as [[v|]|]; try discriminate;
    intros [= <-]; now exists "required path param not provided".
Qed.

Lemma Response_html_answerable text : answerable (Response_html text 200).
Proof. split; [reflexivity | now exists "text/html"]. Qed.

Lemma Response_json_answerable text : answerable (Response_json text 200).
Proof. split; [reflexivity | now exists "application/json"]. Qed.

Lemma get_parsed_tz_coded_400 P self : coded_400 (get_parsed_tz P self).
Proof.
  intros message code. unfold get_parsed_tz.
  destruct (getattr self "tz") as [[|name|]|]; try discriminate.
  - destruct (ZoneInfo P "UTC"); discriminate.
  - destruct (ZoneInfo P name); [discriminate | now intros [= _ <-]].
  - now intros [= _ <-].
Qed.

Lemma get_date_in_utc_coded_400 P self : coded_400 (get_date_in_utc P self).
Proof.
  apply coded_400_bind.
  - intros message code. unfold get_parsed_date.
    destruct (getattr self "date") as [date|]; [|discriminate].
    destruct (first_parsed P date supported_datime_formats);
      [|now intros [= _ <-]].
    destruct (getattr self "tz") as [zone|]; [|discriminate].
    apply coded_400_bind; [apply get_parsed_tz_coded_400|].
    intros zone' m c. discriminate.
  - intros dt message code. unfold astimezone_utc.
    destruct (_ && _); discriminate.
Qed.

Lemma call_get_date_in_utc_coded_400 P obj :
  coded_400 (call_get_date_in_utc P obj).
Proof.
  destruct obj as [| |[]]; simpl; try (intros m c; discriminate).
  apply get_date_in_utc_coded_400.
Qed.

Lemma get_diff_coded_400 P self : coded_400 (get_diff P self).
Proof.
  unfold get_diff.
  destruct (getattr self "start") as [start|]; [|intros m c; discriminate].
  apply coded_400_bind; [apply call_get_date_in_utc_coded_400|]. intros a.
  destruct (getattr self "end") as [finish|]; [|intros m c; discriminate].
  apply coded_400_bind; [apply call_get_date_in_utc_coded_400|].
  intros b m c. discriminate.
Qed.

(** Every handler of the application returns a response with status 200
    or raises; its structured errors have code 400. *)
Lemma handlers_well_coded P route request :
  In route (create_application P) -> well_coded (handler route request).
Proof.
  intros Hin. simpl in Hin.
  destruct Hin as [<-|[<-|[<-|[<-|[<-|[<-|[<-|[]]]]]]]]; cbn [handler].
  - apply answerable_well_coded, Response_html_answerable.
  - unfold render_continent_country_city_time.
    repeat (apply well_coded_bind;
            [intros m c; unfold get_path_param;
             destruct (path_params request) as [g|]; [|discriminate];
             destruct (dict_get _ g) as [[v|]|]; try discriminate;
             now intros [= _ <-]
            |intros ?]).
    apply well_coded_bind;
      [apply only_structured_coded_400, get_str_datetime_only_structured|].
    intros text. apply answerable_well_coded, Response_html_answerable.
  - unfold render_continent_city_time.
    repeat (apply well_coded_bind;
            [intros m c; unfold get_path_param;
             destruct (path_params request) as [g|]; [|discriminate];
             destruct (dict_get _ g) as [[v|]|]; try discriminate;
             now intros [= _ <-]
            |intros ?]).
    apply well_coded_bind;
      [apply only_structured_coded_400, get_str_datetime_only_structured|].
    intros text. apply answerable_well_coded, Response_html_answerable.
  - unfold render_timezone_time.
    apply well_coded_bind;
      [intros m c; unfold get_path_param;
       destruct (path_params request) as [g|]; [|discriminate];
       destruct (dict_get _ g) as [[v|]|]; try discriminate;
       now intros [= _ <-]
      |intros ?].
    apply well_coded_bind;
      [apply only_structured_coded_400, get_str_datetime_only_structured|].
    intros text. apply answerable_well_coded, Response_html_answerable.
  - unfold get_timezone_time.
    apply well_coded_bind; [apply get_body_coded_400 | intros json].
    apply well_coded_bind; [apply model_from_json_error_code | intros model].
    apply well_coded_bind;
      [apply only_structured_coded_400, get_str_datetime_only_structured|].
    intros text. apply answerable_well_coded, Response_json_answerable.
  - unfold get_timezone_date.
    apply well_coded_bind; [apply get_body_coded_400 | intros json].
    apply well_coded_bind; [apply model_from_json_error_code | intros model].
    apply well_coded_bind;
      [apply only_structured_coded_400, get_datetime_only_structured|].
    intros dt. apply answerable_well_coded, Response_json_answerable.
  - unfold get_dates_diff.
    apply well_coded_bind; [apply get_body_coded_400 | intros json].
    apply well_coded_bind; [apply model_from_json_error_code | intros model].
    apply well_coded_bind; [apply get_diff_coded_400 | intros diff].
    apply answerable_well_coded, Response_json_answerable.
Qed.

(** The handlers of the GET routes, called with path parameters set,
    return a response with status 200 or raise the structured error. *)
Lemma get_handlers_answerable P route request params :
  In route (create_application P) ->
  method route = "GET" ->
  answerable (handler route (set_path_params request params)).
Proof.
  intros Hin Hget. simpl in Hin.
  destruct Hin as [<-|[<-|[<-|[<-|[<-|[<-|[<-|[]]]]]]]]; cbn [handler];
    try discriminate Hget.
  - apply Response_html_answerable.
  - unfold render_continent_country_city_time.
    repeat (apply answerable_bind;
            [apply get_path_param_only_structured | intros ?]).
    apply answerable_bind; [apply get_str_datetime_only_structured|].
    intros text. apply Response_html_answerable.
  - unfold render_continent_city_time.
    repeat (apply answerable_bind;
            [apply get_path_param_only_structured | intros ?]).
    apply answerable_bind; [apply get_str_datetime_only_structured|].
    intros text. apply Response_html_answerable.
  - unfold render_timezone_time.
    apply answerable_bind; [apply get_path_param_only_structured | intros ?].
    apply answerable_bind; [apply get_str_datetime_only_structured|].
    intros text. apply Response_html_answerable.
Qed.

(** ** What the dispatcher and the application give back *)

Lemma dispatch_never_structured o message code :
  dispatch o <> Raise (ApplicationError message code).
Proof.
  destruct o as [response|[]]; simpl; try discriminate.
  unfold Response_error, Response_init.
  destruct (http_client_responses code0); discriminate.
Qed.

Lemma dispatch_well_coded o response :
  well_coded o ->
  dispatch o = Ok response ->
  (status response = "200 OK"
   /\ exists content_type, headers response = [("Content-Type", content_type)])
  \/ exists message, response = bad_request message.
Proof.
  destruct o as [r|[]]; simpl; try discriminate.
  - intros Hr [= <-]. now left.
  - intros -> [= <-]. right. now exists message.
Qed.

Lemma dispatch_answerable o :
  answerable o -> exists response, dispatch o = Ok response.
Proof.
  destruct o as [r|[]]; simpl; try contradiction.
  - intros _. now exists r.
  - intros ->. now exists (bad_request message).
Qed.

(** A run of the dispatcher is the 404 without any call, or one call of
    the handler of a route with the request's method. *)
Lemma handle_request_from_cases P routes request :
  forall n,
    handle_request_from P n routes request = ([], Ok not_found)
    \/ exists i route groupdict,
        In route routes
        /\ method route = get_method request
        /\ regex_match P (path_regex route) (get_path request) = Some groupdict
        /\ handle_request_from P n routes request =
           ([i], dispatch (handler route (set_path_params request groupdict))).
Proof.
  induction routes as [|route rest IH]; intros n; [now left|].
  simpl.
  destruct (String.eqb (method route) (get_method request)) eqn:Hmethod; simpl.
  - destruct (regex_match P (path_regex route) (get_path request)) as [g|] eqn:Hg.
    + right. exists n, route, g. apply String.eqb_eq in Hmethod. auto.
    + destruct (IH (S n)) as [H|(i & r & g & Hin & H)]; [now left|].
      right. exists i, r, g. auto.
  - destruct (IH (S n)) as [H|(i & r & g & Hin & H)]; [now left|].
    right. exists i, r, g. auto.
Qed.

(** X1.  Whatever the routes and the request, no [ApplicationError]
    leaves the dispatcher: a handler's structured error is turned into a
    response, or, when its status code has no reason phrase, into the
    [TypeError] of building that response. *)
Theorem structured_error_never_leaves_dispatcher
  (P : Platform) (routes : list Route) (request : Request)
  (message : string) (code : Z) :
  outcome (handle_request P routes request)
  <> Raise (ApplicationError message code).
Proof.
  unfold handle_request.
  destruct (handle_request_from_cases P routes request 0%nat)
    as [->|(i & route & g & _ & _ & _ & ->)]; simpl.
  - discriminate.
  - apply dispatch_never_structured.
Qed.

(** X2.  What the WSGI callable of [create_application] does with any
    environment, on any platform: when it returns, it has called the
    writer exactly once, with a single Content-Type header, and returns
    exactly one chunk, the encoded body; the status is 200, or the
    response is the 400 of a structured error, or the 404; it never
    answers with status 500.  When it raises, the exception is not an
    [ApplicationError]. *)
Theorem application_answers_200_400_404
  (P : Platform) (environ : Request) :
  (forall calls chunks,
      application P environ = Ok (calls, chunks) ->
      exists response,
        calls = [(status response, headers response)]
        /\ chunks = [encode (body response)]
        /\ (exists content_type,
               headers response = [("Content-Type", content_type)])
        /\ (status response = "200 OK"
            \/ (exists message, response = bad_request message)
            \/ response = not_found))
  /\ (forall message code,
         application P environ <> Raise (ApplicationError message code)).
Proof.
  unfold application, handle_request.
  destruct (handle_request_from_cases P (create_application P)
              (Request_init environ) 0%nat)
    as [->|(i & route & g & Hin & _ & _ & ->)]; cbn [outcome snd].
  - split; [|discriminate]. intros calls chunks [= <- <-].
    exists not_found. repeat split; auto.
    now exists "application/json".
  - pose proof (handlers_well_coded P route
                  (set_path_params (Request_init environ) g) Hin) as Hcoded.
    destruct (dispatch (handler route
                          (set_path_params (Request_init environ) g)))
      as [response|e] eqn:E; cbn [bind send_response].
    + split; [|discriminate]. intros calls chunks [= <- <-].
      exists response. repeat split.
      * destruct (dispatch_well_coded _ _ Hcoded E) as [[_ H]|[m ->]];
          [assumption | now exists "application/json"].
      * destruct (dispatch_well_coded _ _ Hcoded E) as [[H _]|H]; auto.
    + split; [discriminate|]. intros message code [= ->].
      now apply dispatch_never_structured in E.
Qed.

(** X3.  On any platform a GET request is always answered: whatever its
    path, the callable returns and does not raise. *)
Theorem get_request_is_always_answered (P : Platform) (environ : Request) :
  REQUEST_METHOD environ = "GET" ->
  exists calls chunks, application P environ = Ok (calls, chunks).
Proof.
  intros Hget. unfold application, handle_request.
  destruct (handle_request_from_cases P (create_application P)
              (Request_init environ) 0%nat)
    as [->|(i & route & g & Hin & Hmethod & _ & ->)]; cbn [outcome snd].
  - simpl. eauto.
  - destruct (dispatch_answerable
                (handler route (set_path_params (Request_init environ) g)))
      as [response ->].
    + apply (get_handlers_answerable P); [assumption|].
      rewrite Hmethod. exact Hget.
    + simpl. eauto.
Qed.

Lemma get_request_is_always_answered_witness :
  REQUEST_METHOD (render_request "/asd") = "GET"
  /\ exists calls chunks,
      application Reference.platform (render_request "/asd")
      = Ok (calls, chunks).
Proof.
  split; [reflexivity|].
  apply (get_request_is_always_answered Reference.platform
           (render_request "/asd")).
  reflexivity.
Defined.

(** ** The shape of a bound model *)

Lemma consume_stored items c :
  forall attrs model,
    stored c attrs ->
    consume model_from_json items (VInstance c attrs) = Ok model ->
    exists attrs', model = VInstance c attrs' /\ stored c attrs'.
Proof.
  induction items as [|[key v] rest IH]; intros attrs model Hstored H.
  - rewrite consume_nil in H. injection H as <-. eauto.
  - apply consume_cons_ok in H as (ty & bound & Hty & Hbound & H).
    apply (IH _ _) in H; [assumption|].
    intros k w Hget. destruct (String.eqb k key) eqn:E.
    + apply String.eqb_eq in E. subst k. rewrite dict_get_set_same in Hget.
      injection Hget as <-. exists ty. split; [assumption|].
      destruct Hbound as [(s & _ & ->)|[_ Hbound]]; [eauto|].
      apply model_from_json_ok_instance in Hbound as (c' & a & -> & ->).
      right. eauto.
    + rewrite dict_get_set_other in Hget; [now apply Hstored|].
      intros ->. now rewrite String.eqb_refl in E.
Qed.

Lemma has_value_false_inv c attrs key v :
  has_value (VInstance c attrs) key = false ->
  dict_get key attrs = Some v -> v = VNone.
Proof.
  unfold has_value, getattr. intros H Hget. rewrite Hget in H.
  destruct v; [reflexivity | discriminate | discriminate].
Qed.

(** What the second loop leaves when it succeeds. *)
Lemma complete_ok_inv keys c :
  forall attrs model,
    complete keys (VInstance c attrs) = Ok model ->
    exists attrs',
      model = VInstance c attrs'
      /\ (forall k v, dict_get k attrs = Some v -> dict_get k attrs' = Some v)
      /\ (forall k, In k keys ->
            has_value (VInstance c attrs) k = true
            \/ dict_get k (annotations c) = Some Tstr_or_None
               /\ dict_get k attrs' = Some VNone)
      /\ (forall k v, dict_get k attrs' = Some v ->
            dict_get k attrs = Some v
            \/ v = VNone /\ dict_get k (annotations c) = Some Tstr_or_None).
Proof.
  induction keys as [|key keys IH]; intros attrs model; simpl.
  - intros [= <-]. exists attrs. repeat split; auto; contradiction.
  - destruct (has_value (VInstance c attrs) key) eqn:Hkey.
    + intros H. destruct (IH _ _ H) as (attrs' & -> & Ha & Hb & Hc).
      exists attrs'. repeat split; auto.
      intros k [<-|Hin]; auto.
    + destruct (dict_get key (annotations c)) as [ty|] eqn:Hty;
        [|discriminate].
      destruct (permits_None ty) eqn:Hopt; [|discriminate].
      apply permits_None_inv in Hopt. subst ty. simpl.
      intros H. destruct (IH _ _ H) as (attrs' & -> & Ha & Hb & Hc).
      exists attrs'. split; [reflexivity|]. split; [|split].
      * intros k v Hget. apply Ha.
        destruct (String.eqb k key) eqn:E.
        -- apply String.eqb_eq in E. subst k.
           rewrite (has_value_false_inv _ _ _ _ Hkey Hget).
           apply dict_get_set_same.
        -- rewrite dict_get_set_other; [assumption|].
           intros ->. now rewrite String.eqb_refl in E.
      * intros k [<-|Hin].
        -- right. split; [assumption|]. apply Ha, dict_get_set_same.
        -- destruct (Hb k Hin) as [Hv|Hnone]; [left | now right].
           now rewrite has_value_set_None in Hv.
      * intros k v Hget. destruct (Hc k v Hget) as [Hset|Hnone]; [|now right].
        destruct (String.eqb k key) eqn:E.
        -- apply String.eqb_eq in E. subst k.
           rewrite dict_get_set_same in Hset. injection Hset as <-.
           now right.
        -- left. rewrite dict_get_set_other in Hset; [assumption|].
           intros ->. now rewrite String.eqb_refl in E.
Qed.

(** X4.  The shape of every model the binder returns for a model class:
    an instance of that class in which every declared field is set and
    nothing else is.  A field declared [str] holds a string, an optional
    field a string or [None], and a field declared with a model class an
    instance of that class, or a string, which the binder stores without
    looking at the declared type. *)
Theorem bound_model_has_exactly_the_declared_fields
  (c : ModelClass) (json : Json) (model : value) :
  model_from_json (Tmodel c) json = Ok model ->
  exists attrs,
    model = VInstance c attrs
    /\ (forall key attr_type,
           dict_get key (annotations c) = Some attr_type ->
           exists v, dict_get key attrs = Some v /\ field_holds attr_type v)
    /\ (forall key,
           dict_get key (annotations c) = None -> dict_get key attrs = None).
Proof.
  intros Hbound. destruct json; try discriminate.
  rewrite model_from_json_dict in Hbound.
  cbn [new bind class_annotations] in Hbound.
  destruct (consume model_from_json items (VInstance c [])) as [m|] eqn:E;
    [|discriminate].
  cbn [bind] in Hbound.
  apply consume_stored in E as (attrs1 & -> & Hstored);
    [|intros k v; discriminate].
  apply complete_ok_inv in Hbound as (attrs & -> & Ha & Hb & Hc).
  exists attrs. split; [reflexivity|]. split.
  - intros key ty Hty.
    assert (Hin : In key (dict_keys (annotations c))).
    { apply dict_get_some_in in Hty. apply in_map_iff. now exists (key, ty). }
    destruct (Hb key Hin) as [Hv|[Hopt Hnone]].
    + unfold has_value, getattr in Hv.
      destruct (dict_get key attrs1) as [v|] eqn:Hget; [|discriminate].
      exists v. split; [now apply Ha|].
      destruct (Hstored key v Hget) as (ty' & Hty' & Hv').
      assert (ty' = ty) by congruence. subst ty'.
      destruct Hv' as [[s ->]|(c' & a & -> & ->)].
      * destruct ty; simpl; eauto.
      * simpl. eauto.
    + exists VNone. split; [assumption|].
      assert (ty = Tstr_or_None) by congruence. subst ty. now left.
  - intros key Hundeclared.
    destruct (dict_get key attrs) as [v|] eqn:Hget; [|reflexivity].
    destruct (Hc key v Hget) as [Hset|[_ Hopt]]; [|congruence].
    destruct (Hstored key v Hset) as (ty & Hty & _). congruence.
Qed.

Lemma bound_model_has_exactly_the_declared_fields_witness :
  exists attrs,
    VInstance DateModel [("date", VStr "x"); ("tz", VNone)]
    = VInstance DateModel attrs
    /\ (forall key attr_type,
           dict_get key (annotations DateModel) = Some attr_type ->
           exists v, dict_get key attrs = Some v /\ field_holds attr_type v)
    /\ (forall key,
           dict_get key (annotations DateModel) = None ->
           dict_get key attrs = None).
Proof.
  apply (bound_model_has_exactly_the_declared_fields DateModel
           (JDict [("date", JStr "x")])).
  reflexivity.
Defined.

(** X5.  A string where a nested model is declared: the binder accepts
    it, and the difference handler then calls a method the string does not
    have, so the request ends as [AttributeError], not as a 400. *)
Theorem string_for_a_nested_model_is_an_unexpected_failure
  (P : Platform) (request : Request) (items : list (string * Json))
  (model : value) (s : string) :
  get_body P request = Ok (JDict items) ->
  NoDup (dict_keys items) ->
  In ("start", JStr s) items ->
  model_from_json (Tmodel DatesDiffModel) (JDict items) = Ok model ->
  getattr model "start" = Some (VStr s)
  /\ get_dates_diff P request = Raise AttributeError
  /\ dispatch (get_dates_diff P request) = Raise AttributeError.
Proof.
  intros Hbody Hnodup Hin Hbound.
  assert (Hstart : getattr model "start" = Some (VStr s)).
  { rewrite model_from_json_dict in Hbound.
    cbn [new bind class_annotations] in Hbound.
    destruct (consume model_from_json items (VInstance DatesDiffModel []))
      as [m|] eqn:E; [|discriminate].
    cbn [bind] in Hbound.
    pose proof (consume_stores_string _ _ _ _ _ _ _ Hnodup Hin E) as Hm.
    destruct (consume_instance _ _ _ _ _ E) as [attrs1 ->].
    apply complete_ok_inv in Hbound as (attrs & -> & Ha & _).
    simpl. now apply Ha. }
  assert (Hdiff : get_dates_diff P request = Raise AttributeError).
  { unfold get_dates_diff. rewrite Hbody. cbn [bind]. rewrite Hbound.
    cbn [bind]. unfold get_diff. now rewrite Hstart. }
  repeat split; [assumption | assumption |]. now rewrite Hdiff.
Qed.

Lemma string_for_a_nested_model_is_an_unexpected_failure_witness :
  getattr (VInstance DatesDiffModel [("start", VStr "x"); ("end", VStr "y")])
    "start" = Some (VStr "x")
  /\ get_dates_diff Reference.platform
       (post_request "/api/v1/datediff"
          (Some (tests_dates (JStr "x") (JStr "y"))))
     = Raise AttributeError
  /\ dispatch
       (get_dates_diff Reference.platform
          (post_request "/api/v1/datediff"
             (Some (tests_dates (JStr "x") (JStr "y")))))
     = Raise AttributeError.
Proof.
  apply (string_for_a_nested_model_is_an_unexpected_failure
           Reference.platform
           (post_request "/api/v1/datediff"
              (Some (tests_dates (JStr "x") (JStr "y"))))
           [("start", JStr "x"); ("end", JStr "y")]
           (VInstance DatesDiffModel [("start", VStr "x"); ("end", VStr "y")])
           "x").
  - reflexivity.
  - repeat constructor; simpl; intuition discriminate.
  - now left.
  - reflexivity.
Defined.

(** X6.  An object where a field is not declared with a model class: once
    the keys before it are consumed, the recursive call is made on [str],
    which has no annotations, or on [str | None], which cannot be
    instantiated, and binding ends as [AttributeError] or [TypeError], not
    as the structured error. *)
Theorem object_for_a_plain_field_is_an_unexpected_failure
  (c : ModelClass) (before after nested : list (string * Json))
  (key : string) (attr_type : pytype) (model : value) :
  consume model_from_json before (VInstance c []) = Ok model ->
  dict_get key (annotations c) = Some attr_type ->
  is_model attr_type = false ->
  model_from_json (Tmodel c) (JDict (before ++ (key, JDict nested) :: after))
  = Raise (if permits_None attr_type then TypeError else AttributeError).
Proof.
  intros Hbefore Hty Hplain.
  rewrite model_from_json_dict. cbn [new bind].
  rewrite consume_app, Hbefore. cbn [bind].
  apply consume_instance in Hbefore as [attrs ->].
  rewrite consume_cons. cbn [instance_annotations bind]. rewrite Hty.
  destruct attr_type as [| |c']; [| |discriminate].
  - destruct nested as [|[k v] rest]; reflexivity.
  - reflexivity.
Qed.

Lemma object_for_a_plain_field_is_an_unexpected_failure_witness :
  model_from_json (Tmodel DateModel)
    (JDict ([("date", JStr "x")] ++ ("tz", JDict []) :: []))
  = Raise (if permits_None Tstr_or_None then TypeError else AttributeError).
Proof.
  apply (object_for_a_plain_field_is_an_unexpected_failure DateModel
           [("date", JStr "x")] [] [] "tz" Tstr_or_None
           (VInstance DateModel [("date", VStr "x")]));
    reflexivity.
Defined.

(** ** The clock endpoints *)

(** X7.  On every platform, also one that does not know the zone UTC, a
    body without [tz] gets from the time and date endpoints exactly what a
    body with [tz] set to 'UTC' gets: the same response or the same
    error. *)
Theorem absent_tz_is_answered_as_tz_UTC (P : Platform) (r1 r2 : Request) :
  get_body P r1 = Ok (JDict []) ->
  get_body P r2 = Ok (JDict [("tz", JStr "UTC")]) ->
  get_timezone_time P r1 = get_timezone_time P r2
  /\ get_timezone_date P r1 = get_timezone_date P r2.
Proof.
  intros H1 H2. unfold get_timezone_time, get_timezone_date.
  rewrite H1, H2. cbn [bind].
  change (model_from_json (Tmodel TimezoneModel) (JDict []))
    with (Ok (VInstance TimezoneModel [("tz", VNone)])).
  change (model_from_json (Tmodel TimezoneModel) (JDict [("tz", JStr "UTC")]))
    with (Ok (VInstance TimezoneModel [("tz", VStr "UTC")])).
  cbn [bind]. unfold get_str_datetime, get_datetime, get_parsed_tz. simpl.
  destruct (ZoneInfo P "UTC"); split; reflexivity.
Qed.

Lemma absent_tz_is_answered_as_tz_UTC_witness :
  get_timezone_time Reference.platform
    (post_request "/api/v1/time" (Some (JDict [])))
  = get_timezone_time Reference.platform
      (post_request "/api/v1/time" (Some (JDict [("tz", JStr "UTC")])))
  /\ get_timezone_date Reference.platform
       (post_request "/api/v1/time" (Some (JDict [])))
     = get_timezone_date Reference.platform
         (post_request "/api/v1/time" (Some (JDict [("tz", JStr "UTC")]))).
Proof.
  apply (absent_tz_is_answered_as_tz_UTC Reference.platform); reflexivity.
Defined.

(** X8.  The JSON time endpoint and the page of a bare time zone show the
    same text for the same zone name: both print the one text
    [get_str_datetime] gives for the name, and both fail with its error
    when it fails. *)
Theorem json_time_and_page_show_the_same_text
  (P : Platform) (posted fetched : Request) (name : string)
  (params : list (string * option string)) :
  get_body P posted = Ok (JDict [("tz", JStr name)]) ->
  path_params fetched = Some params ->
  dict_get "timezone" params = Some (Some name) ->
  match get_str_datetime P (TimezoneModel_init (VStr name)) with
  | Ok text =>
      get_timezone_time P posted = Response_json text 200
      /\ render_timezone_time P fetched = Response_html text 200
  | Raise e =>
      get_timezone_time P posted = Raise e
      /\ render_timezone_time P fetched = Raise e
  end.
Proof.
  intros Hbody Hparams Hname.
  unfold get_timezone_time, render_timezone_time, get_path_param.
  rewrite Hbody, Hparams, Hname. cbn [bind].
  change (model_from_json (Tmodel TimezoneModel) (JDict [("tz", JStr name)]))
    with (Ok (TimezoneModel_init (VStr name))).
  cbn [bind].
  destruct (get_str_datetime P (TimezoneModel_init (VStr name)));
    split; reflexivity.
Qed.

Lemma json_time_and_page_show_the_same_text_witness :
  get_timezone_time Reference.platform
    (post_request "/api/v1/time" (Some (JDict [("tz", JStr "Asia/Novosibirsk")])))
  = Response_json "2024-12-20 07:19:00" 200
  /\ render_timezone_time Reference.platform
       (set_path_params (render_request "/x")
          [("timezone", Some "Asia/Novosibirsk")])
     = Response_html "2024-12-20 07:19:00" 200.
Proof.
  exact (json_time_and_page_show_the_same_text Reference.platform
           (post_request "/api/v1/time"
              (Some (JDict [("tz", JStr "Asia/Novosibirsk")])))
           (set_path_params (render_request "/x")
              [("timezone", Some "Asia/Novosibirsk")])
           "Asia/Novosibirsk" [("timezone", Some "Asia/Novosibirsk")]
           eq_refl eq_refl eq_refl).
Defined.

(** X9.  The time and the date endpoint reject exactly the same requests,
    with the same exception: they differ only in what they print. *)
Theorem time_and_date_fail_alike (P : Platform) (request : Request)
  (e : exception) :
  get_timezone_time P request = Raise e
  <-> get_timezone_date P request = Raise e.
Proof.
  unfold get_timezone_time, get_timezone_date, get_str_datetime.
  destruct (get_body P request) as [json|]; cbn [bind]; [|tauto].
  destruct (model_from_json (Tmodel TimezoneModel) json) as [model|];
    cbn [bind]; [|tauto].
  destruct (get_datetime P model) as [dt|]; cbn [bind]; [|tauto].
  split; discriminate.
Qed.

(** ** The request body *)


(** A Content-Length of 2^63: the read fails before a byte is parsed, and
    the exception leaves the dispatcher. *)
Example oversized_content_length_overflows :
  get_body Reference.platform
    {| REQUEST_METHOD := "POST"; PATH_INFO := "/api/v1/time";
       CONTENT_LENGTH := Some "9223372036854775808";
       wsgi_input := list_byte_of_string "{";
       path_params := None |}
  = Raise OverflowError
  /\ serve {| REQUEST_METHOD := "POST"; PATH_INFO := "/api/v1/time";
              CONTENT_LENGTH := Some "9223372036854775808";
              wsgi_input := list_byte_of_string "{";
              path_params := None |}
     = ([4%nat], Raise OverflowError).
Proof. split; vm_compute; reflexivity. Qed.

(** A Content-Length of 2^40, more than the buffers of the reference
    platform: the read fails for want of memory, whatever bytes follow. *)
Example large_content_length_exhausts_memory :
  get_body Reference.platform
    {| REQUEST_METHOD := "POST"; PATH_INFO := "/api/v1/time";
       CONTENT_LENGTH := Some "1099511627776";
       wsgi_input := list_byte_of_string "5";
       path_params := None |}
  = Raise MemoryError.
Proof. vm_compute; reflexivity. Qed.

Lemma read_body_ignores_the_rest P request n extra :
  n <= Z.of_nat (List.length (wsgi_input request)) ->
  read_body P (with_input request (wsgi_input request ++ extra)) n
  = read_body P request n.
Proof.
  intros Hn. unfold read_body. simpl. destruct (0 <? n); [|reflexivity].
  destruct (9223372036854775808 <=? n); [reflexivity|].
  destruct (memory P <? n); [reflexivity|]. f_equal.
  rewrite firstn_app.
  replace (Z.to_nat n - List.length (wsgi_input request))%nat with 0%nat by lia.
  simpl. apply app_nil_r.
Qed.

(** X11.  [get_body] reads no more than Content-Length says: bytes that
    follow the announced length change nothing, and with a length that is
    absent, zero or negative the bytes on the input are not read at all. *)
Theorem get_body_reads_content_length_bytes
  (P : Platform) (request : Request) (n : Z) :
  content_length P request = Ok n ->
  (forall extra,
      n <= Z.of_nat (List.length (wsgi_input request)) ->
      get_body P (with_input request (wsgi_input request ++ extra))
      = get_body P request)
  /\ (n <= 0 ->
      forall bytes,
        get_body P (with_input request bytes) = get_body P request).
Proof.
  intros Hn. split.
  - intros extra Hlen. unfold get_body.
    change (content_length P (with_input request (wsgi_input request ++ extra)))
      with (content_length P request).
    rewrite Hn. cbn [bind]. now rewrite read_body_ignores_the_rest.
  - intros Hle bytes. unfold get_body.
    change (content_length P (with_input request bytes))
      with (content_length P request).
    rewrite Hn. cbn [bind]. unfold read_body.
    destruct (0 <? n) eqn:E; [apply Z.ltb_lt in E; lia | reflexivity].
Qed.

Lemma get_body_reads_content_length_bytes_witness :
  (forall extra,
      2 <= Z.of_nat (List.length (wsgi_input (post_text "/api/v1/time" "{}"))) ->
      get_body Reference.platform
        (with_input (post_text "/api/v1/time" "{}")
           (wsgi_input (post_text "/api/v1/time" "{}") ++ extra))
      = get_body Reference.platform (post_text "/api/v1/time" "{}"))
  /\ (2 <= 0 ->
      forall bytes,
        get_body Reference.platform
          (with_input (post_text "/api/v1/time" "{}") bytes)
        = get_body Reference.platform (post_text "/api/v1/time" "{}")).
Proof.
  apply (get_body_reads_content_length_bytes Reference.platform
           (post_text "/api/v1/time" "{}") 2).
  reflexivity.
Defined.

(** ** The difference handler *)

Lemma call_get_date_in_utc_of_attrs P attrs date zone_name :
  dict_get "date" attrs = Some date ->
  dict_get "tz" attrs = Some zone_name ->
  call_get_date_in_utc P (VInstance DateModel attrs) =
  match first_parsed P date supported_datime_formats with
  | None =>
      Raise (ApplicationError_
               ("invalid datetime format: " ++ format_value date))
  | Some dt =>
      timezone <- get_parsed_tz P (TimezoneModel_init zone_name) ;;
      astimezone_utc {| wall := dt; tz := Some timezone |}
  end.
Proof.
  intros Hdate Hzone. cbn [call_get_date_in_utc]. unfold get_date_in_utc.
  rewrite (get_parsed_date_of_attrs P _ _ date zone_name Hdate Hzone).
  destruct (first_parsed P date supported_datime_formats); [|reflexivity].
  destruct (get_parsed_tz P (TimezoneModel_init zone_name)); reflexivity.
Qed.

(** X12.  The start date is looked at first, and its text before its
    zone: when the start date has none of the two formats, the answer is
    the 400 'invalid datetime format: <date>' for the start date, whatever
    its zone and whatever the end date are. *)
Theorem unparsable_start_date_is_reported_first
  (P : Platform) (request : Request) (json : Json) (model : value)
  (attrs : list (string * value)) (date : string) :
  get_body P request = Ok json ->
  model_from_json (Tmodel DatesDiffModel) json = Ok model ->
  getattr model "start" = Some (VInstance DateModel attrs) ->
  dict_get "date" attrs = Some (VStr date) ->
  first_parsed P (VStr date) supported_datime_formats = None ->
  dispatch (get_dates_diff P request)
  = Ok (bad_request ("invalid datetime format: " ++ date)).
Proof.
  intros Hbody Hbound Hstart Hdate Hnone.
  unfold get_dates_diff. rewrite Hbody. cbn [bind]. rewrite Hbound.
  cbn [bind]. unfold get_diff. rewrite Hstart.
  cbn [call_get_date_in_utc]. unfold get_date_in_utc, get_parsed_date.
  cbn [getattr]. rewrite Hdate, Hnone. reflexivity.
Qed.

Lemma unparsable_start_date_is_reported_first_witness :
  dispatch
    (get_dates_diff Reference.platform
       (post_request "/api/v1/datediff"
          (Some (tests_dates
                   (JDict [("date", JStr "today"); ("tz", JStr "Nowhere")])
                   (JDict [("date", JStr "tomorrow")])))))
  = Ok (bad_request ("invalid datetime format: " ++ "today")).
Proof.
  exact (unparsable_start_date_is_reported_first Reference.platform
           (post_request "/api/v1/datediff"
              (Some (tests_dates
                       (JDict [("date", JStr "today"); ("tz", JStr "Nowhere")])
                       (JDict [("date", JStr "tomorrow")]))))
           (tests_dates
              (JDict [("date", JStr "today"); ("tz", JStr "Nowhere")])
              (JDict [("date", JStr "tomorrow")]))
           (VInstance DatesDiffModel
              [("start",
                VInstance DateModel
                  [("date", VStr "today"); ("tz", VStr "Nowhere")]);
               ("end",
                VInstance DateModel [("date", VStr "tomorrow"); ("tz", VNone)])])
           [("date", VStr "today"); ("tz", VStr "Nowhere")]
           "today" eq_refl eq_refl eq_refl eq_refl eq_refl).
Defined.

(** X13.  What [get_diff] computes for two dates that parse and whose
    zones resolve: each wall clock reading less the offset its zone has at
    that reading, start less end, when both instants lie in the range of
    [datetime]; and when the instant of the start date lies outside that
    range, the conversion to UTC overflows and [get_diff] ends as
    [OverflowError], not as the structured error. *)
Theorem get_diff_subtracts_the_instants
  (P : Platform) (self : value)
  (start_attrs end_attrs : list (string * value))
  (start_date end_date start_zone end_zone : value)
  (start_wall end_wall : Z) (start_tz end_tz : tzinfo) :
  getattr self "start" = Some (VInstance DateModel start_attrs) ->
  getattr self "end" = Some (VInstance DateModel end_attrs) ->
  dict_get "date" start_attrs = Some start_date ->
  dict_get "tz" start_attrs = Some start_zone ->
  dict_get "date" end_attrs = Some end_date ->
  dict_get "tz" end_attrs = Some end_zone ->
  first_parsed P start_date supported_datime_formats = Some start_wall ->
  first_parsed P end_date supported_datime_formats = Some end_wall ->
  get_parsed_tz P (TimezoneModel_init start_zone) = Ok start_tz ->
  get_parsed_tz P (TimezoneModel_init end_zone) = Ok end_tz ->
  (0 <= start_wall - utcoffset start_tz start_wall <= datetime_max ->
   0 <= end_wall - utcoffset end_tz end_wall <= datetime_max ->
   get_diff P self
   = Ok ((start_wall - utcoffset start_tz start_wall)
         - (end_wall - utcoffset end_tz end_wall)))
  /\ (~ 0 <= start_wall - utcoffset start_tz start_wall <= datetime_max ->
      get_diff P self = Raise OverflowError).
Proof.
  intros Hstart Hend Hsd Hsz Hed Hez Hsw Hew Hstz Hetz.
  unfold get_diff. rewrite Hstart, Hend.
  rewrite (call_get_date_in_utc_of_attrs P _ _ _ Hsd Hsz), Hsw, Hstz.
  rewrite (call_get_date_in_utc_of_attrs P _ _ _ Hed Hez), Hew, Hetz.
  cbn [bind]. unfold astimezone_utc. cbn [wall tz]. split.
  - intros Hs He.
    replace ((0 <=? start_wall - utcoffset start_tz start_wall)
             && (start_wall - utcoffset start_tz start_wall <=? datetime_max))
      with true by (symmetry; apply andb_true_intro; split;
                    apply Z.leb_le; lia).
    replace ((0 <=? end_wall - utcoffset end_tz end_wall)
             && (end_wall - utcoffset end_tz end_wall <=? datetime_max))
      with true by (symmetry; apply andb_true_intro; split;
                    apply Z.leb_le; lia).
    cbn [bind]. unfold datetime_sub, instant. cbn [wall tz timezone_utc utcoffset].
    f_equal. lia.
  - intros Hout.
    destruct ((0 <=? start_wall - utcoffset start_tz start_wall)
              && (start_wall - utcoffset start_tz start_wall <=? datetime_max))
      eqn:E; [|reflexivity].
    apply andb_prop in E as [E1 E2].
    apply Z.leb_le in E1. apply Z.leb_le in E2. lia.
Qed.

Lemma get_diff_subtracts_the_instants_witness :
  (0 <= 19 * 60 - utcoffset (Reference.fixed_offset 7) (19 * 60)
   <= datetime_max ->
   0 <= 19 * 60 - utcoffset (Reference.fixed_offset 0) (19 * 60)
   <= datetime_max ->
   get_diff Reference.platform
     (VInstance DatesDiffModel
        [("start",
          VInstance DateModel
            [("date", VStr "01.01.0001 00:19:00");
             ("tz", VStr "Asia/Novosibirsk")]);
         ("end",
          VInstance DateModel
            [("date", VStr "01.01.0001 00:19:00"); ("tz", VNone)])])
   = Ok ((19 * 60 - utcoffset (Reference.fixed_offset 7) (19 * 60))
         - (19 * 60 - utcoffset (Reference.fixed_offset 0) (19 * 60))))
  /\ (~ 0 <= 19 * 60 - utcoffset (Reference.fixed_offset 7) (19 * 60)
        <= datetime_max ->
      get_diff Reference.platform
        (VInstance DatesDiffModel
           [("start",
             VInstance DateModel
               [("date", VStr "01.01.0001 00:19:00");
                ("tz", VStr "Asia/Novosibirsk")]);
            ("end",
             VInstance DateModel
               [("date", VStr "01.01.0001 00:19:00"); ("tz", VNone)])])
      = Raise OverflowError).
Proof.
  apply (get_diff_subtracts_the_instants Reference.platform
           (VInstance DatesDiffModel
              [("start",
                VInstance DateModel
                  [("date", VStr "01.01.0001 00:19:00");
                   ("tz", VStr "Asia/Novosibirsk")]);
               ("end",
                VInstance DateModel
                  [("date", VStr "01.01.0001 00:19:00"); ("tz", VNone)])])
           [("date", VStr "01.01.0001 00:19:00");
            ("tz", VStr "Asia/Novosibirsk")]
           [("date", VStr "01.01.0001 00:19:00"); ("tz", VNone)]
           (VStr "01.01.0001 00:19:00") (VStr "01.01.0001 00:19:00")
           (VStr "Asia/Novosibirsk") VNone
           (19 * 60) (19 * 60)
           (Reference.fixed_offset 7) (Reference.fixed_offset 0));
    reflexivity.
Defined.

(** The first minutes of year 1 in a zone east of Greenwich: the instant
    is before [datetime.min], and the request ends as [OverflowError]. *)
Example first_minutes_of_year_one_overflow :
  outcome (serve (post_request "/api/v1/datediff"
                    (Some (tests_dates
                             (JDict [("date", JStr "01.01.0001 00:19:00");
                                     ("tz", JStr "Asia/Novosibirsk")])
                             (JDict [("date", JStr "01.01.0001 00:19:00")])))))
  = Raise OverflowError.
Proof. reflexivity. Qed.

(** ** The route patterns, on the matcher of the reference platform *)

Lemma try_counts_last {A : Type} lo n (attempt : nat -> option A) :
  (forall m, (m < n)%nat -> attempt m = None) ->
  try_counts lo n attempt = if (n <? lo)%nat then None else attempt n.
Proof.
  induction n as [|n IH]; intros Hnone; simpl.
  - destruct (0 <? lo)%nat; [reflexivity|]. now destruct (attempt 0%nat).
  - destruct (S n <? lo)%nat eqn:E; [reflexivity|].
    destruct (attempt (S n)) eqn:Hlast; [reflexivity|].
    rewrite IH by (intros m Hm; apply Hnone; lia).
    destruct (n <? lo)%nat; [reflexivity|]. apply Hnone. lia.
Qed.

Lemma skip_in_run cs m s :
  (m < run_length cs None s)%nat ->
  exists c rest, skip m s = String c rest /\ in_charset cs c = true.
Proof.
  revert s. induction m as [|m IH]; intros [|c rest]; simpl;
    try (intros H; now inversion H).
  - destruct (in_charset cs c) eqn:E; [eauto | intros H; inversion H].
  - destruct (in_charset cs c); [|intros H; inversion H].
    intros H. apply IH. lia.
Qed.

Lemma match_literal c s pos g k :
  match_item (literal c) s pos g k =
  match s with
  | String d rest =>
      if Ascii.eqb d c then k rest (pos + 1)%nat g else None
  | EmptyString => None
  end.
Proof.
  assert (Hzero : forall t, run_length (Single c) (Some 0%nat) t = 0%nat)
    by (intros [|e t]; reflexivity).
  unfold literal. cbn [match_item]. destruct s as [|d rest]; [reflexivity|].
  simpl. destruct (Ascii.eqb d c); simpl; [|reflexivity].
  rewrite Hzero. simpl. now destruct (k rest (pos + 1)%nat g).
Qed.

(** A segment takes the whole word, when what follows in the pattern
    cannot start with a zone character. *)
Lemma match_word name lo s pos g k :
  (forall c rest pos' g',
      in_charset zone_chars c = true -> k (String c rest) pos' g' = None) ->
  match_item (Group name [Chars zone_chars lo None]) s pos g k =
  if (word s <? lo)%nat then None
  else k (after_word s) (pos + word s)%nat
         (dict_set name (Some (the_word s)) g).
Proof.
  intros Hk. cbn [match_item]. rewrite try_counts_last.
  - fold (word s). destruct (word s <? lo)%nat; [reflexivity|].
    unfold after_word, the_word.
    now replace (pos + word s - pos)%nat with (word s) by lia.
  - intros m Hm. destruct (skip_in_run _ _ _ Hm) as (c & rest & -> & Hc).
    now apply Hk.
Qed.

Lemma zone_char_is_no_newline c :
  in_charset zone_chars c = true -> Ascii.eqb c (ascii_of_nat 10) = false.
Proof.
  intros Hc. destruct (Ascii.eqb c (ascii_of_nat 10)) eqn:E; [|reflexivity].
  apply Ascii.eqb_eq in E. subst c. discriminate.
Qed.

Lemma zone_char_is_no_slash c :
  in_charset zone_chars c = true -> Ascii.eqb c "/" = false.
Proof.
  intros Hc. destruct (Ascii.eqb c "/") eqn:E; [|reflexivity].
  apply Ascii.eqb_eq in E. subst c. discriminate.
Qed.

Lemma at_end_zone_char c rest :
  in_charset zone_chars c = true -> at_end (String c rest) = false.
Proof.
  intros Hc. simpl. destruct rest; [|reflexivity].
  now apply zone_char_is_no_newline.
Qed.

Lemma match_segments_zone_char segs c rest g :
  in_charset zone_chars c = true ->
  match_segments segs (String c rest) g = None.
Proof.
  intros Hc. destruct segs as [|[name lo] more].
  - cbn [match_segments]. now rewrite at_end_zone_char.
  - cbn [match_segments].
    destruct (Ascii.eqb c "/") eqn:E.
    + now rewrite zone_char_is_no_slash in E.
    + apply Ascii.eqb_neq in E.
      destruct c as [[] [] [] [] [] [] [] []]; try reflexivity. congruence.
Qed.

(** The matcher on a pattern of segments does what [match_segments]
    says. *)
Lemma match_seq_segments segs :
  forall s pos g,
    match_seq (segments segs) s pos g (fun _ _ g => Some g)
    = match_segments segs s g.
Proof.
  induction segs as [|[name lo] more IH]; intros s pos g.
  - reflexivity.
  - cbn [segments match_seq]. rewrite match_literal.
    destruct s as [|d rest]; [reflexivity|].
    destruct (Ascii.eqb d "/") eqn:E.
    + apply Ascii.eqb_eq in E. subst d. rewrite match_word.
      * cbn [match_segments]. destruct (word rest <? lo)%nat; [reflexivity|].
        apply IH.
      * intros c rest' pos' g' Hc. rewrite IH.
        now apply match_segments_zone_char.
    + apply Ascii.eqb_neq in E. cbn [match_segments].
      destruct d as [[] [] [] [] [] [] [] []]; try reflexivity. congruence.
Qed.

Lemma match_seq_literals text :
  forall s pos g,
    match_seq (literals text) s pos g (fun _ _ g => Some g)
    = if match_literals text s then Some g else None.
Proof.
  induction text as [|c text IH]; intros s pos g.
  - reflexivity.
  - cbn [literals match_seq]. rewrite match_literal.
    destruct s as [|d rest]; [reflexivity|]. cbn [match_literals].
    destruct (Ascii.eqb d c); [apply IH | reflexivity].
Qed.

Lemma re_match_segments pattern segs s :
  parse_regex pattern = Some (Bol :: segments segs) ->
  re_match pattern s = match_segments segs s [].
Proof.
  intros Hparse. unfold re_match. rewrite Hparse.
  change (match_seq (Bol :: segments segs) s 0 [] (fun _ _ g => Some g))
    with (match_seq (segments segs) s 0 [] (fun _ _ g => Some g)).
  apply match_seq_segments.
Qed.

Lemma re_match_literals pattern text s :
  parse_regex pattern = Some (Bol :: literals text) ->
  re_match pattern s = if match_literals text s then Some [] else None.
Proof.
  intros Hparse. unfold re_match. rewrite Hparse.
  change (match_seq (Bol :: literals text) s 0 [] (fun _ _ g => Some g))
    with (match_seq (literals text) s 0 [] (fun _ _ g => Some g)).
  apply match_seq_literals.
Qed.

(** On a platform whose [re.match] is the matcher above, each route of
    the application accepts what [route_accepts] says. *)
Lemma accepts_route_accepts P request i route :
  regex_match P = re_match ->
  nth_error (create_application P) i = Some route ->
  accepts P route request
  = route_accepts i (get_method request) (get_path request).
Proof.
  intros Hre Hnth. unfold accepts. rewrite Hre.
  destruct i as [|[|[|[|[|[|[|i]]]]]]]; try (destruct i; discriminate);
    injection Hnth as <-; cbn [method path_regex route_accepts].
  - rewrite (re_match_literals _ "/") by reflexivity.
    now destruct (match_literals _ _).
  - now rewrite (re_match_segments _ continent_country_city) by reflexivity.
  - now rewrite (re_match_segments _ continent_city) by reflexivity.
  - now rewrite (re_match_segments _ bare_zone) by reflexivity.
  - rewrite (re_match_literals _ "/api/v1/time") by reflexivity.
    now destruct (match_literals _ _).
  - rewrite (re_match_literals _ "/api/v1/date") by reflexivity.
    now destruct (match_literals _ _).
  - rewrite (re_match_literals _ "/api/v1/datediff") by reflexivity.
    now destruct (match_literals _ _).
Qed.

Lemma at_end_inv s :
  at_end s = true -> s = EmptyString \/ s = String (ascii_of_nat 10) EmptyString.
Proof.
  destruct s as [|c [|d rest]]; simpl; try discriminate; [now left|].
  intros H. apply Ascii.eqb_eq in H. subst c. now right.
Qed.

Lemma at_end_slash rest : at_end (String "/" rest) = false.
Proof. now destruct rest. Qed.

Lemma word_at_end s : at_end s = true -> word s = 0%nat.
Proof. intros H. destruct (at_end_inv s H) as [->| ->]; reflexivity. Qed.

(** A path matches patterns of segments of one length only. *)
Lemma match_segments_one_length segs1 :
  forall segs2 s g1 g2,
    match_segments segs1 s g1 <> None ->
    match_segments segs2 s g2 <> None ->
    List.length segs1 = List.length segs2.
Proof.
  induction segs1 as [|[n1 lo1] more1 IH];
    intros [|[n2 lo2] more2] s g1 g2; cbn [match_segments List.length];
    try reflexivity.
  - destruct (at_end s) eqn:E; [|congruence]. intros _.
    destruct s as [|c rest]; [congruence|].
    destruct (Ascii.eqb c "/") eqn:Ec.
    + apply Ascii.eqb_eq in Ec. subst c. now rewrite at_end_slash in E.
    + apply Ascii.eqb_neq in Ec.
      destruct c as [[] [] [] [] [] [] [] []]; congruence.
  - intros H1. destruct (at_end s) eqn:E; [|congruence]. intros _.
    destruct s as [|c rest]; [congruence|].
    destruct (Ascii.eqb c "/") eqn:Ec.
    + apply Ascii.eqb_eq in Ec. subst c. now rewrite at_end_slash in E.
    + apply Ascii.eqb_neq in Ec.
      destruct c as [[] [] [] [] [] [] [] []]; congruence.
  - destruct s as [|c rest]; [congruence|].
    destruct (Ascii.eqb c "/") eqn:Ec.
    + apply Ascii.eqb_eq in Ec. subst c.
      destruct (word rest <? lo1)%nat; [congruence|].
      destruct (word rest <? lo2)%nat; [congruence|].
      intros H1 H2. f_equal. eapply IH; eauto.
    + apply Ascii.eqb_neq in Ec.
      destruct c as [[] [] [] [] [] [] [] []]; congruence.
Qed.

(** The root path matches no pattern of segments that asks for a
    character. *)
Lemma root_matches_no_segments name lo more s g :
  (1 <= lo)%nat ->
  match_literals "/" s = true ->
  match_segments ((name, lo) :: more) s g = None.
Proof.
  intros Hlo. cbn [match_literals match_segments].
  destruct s as [|c rest]; [discriminate|].
  intros H. apply andb_prop in H as [Hc Hend].
  apply Ascii.eqb_eq in Hc. subst c. rewrite (word_at_end _ Hend).
  destruct (0 <? lo)%nat eqn:E; [reflexivity|].
  apply Nat.ltb_ge in E. lia.
Qed.

Lemma match_literals_inv text :
  forall s,
    match_literals text s = true ->
    s = text \/ s = text ++ String (ascii_of_nat 10) EmptyString.
Proof.
  induction text as [|c text IH]; intros s; cbn [match_literals].
  - apply at_end_inv.
  - destruct s as [|d rest]; [discriminate|].
    intros H. apply andb_prop in H as [Hd Hrest].
    apply Ascii.eqb_eq in Hd. subst d.
    destruct (IH _ Hrest) as [->| ->]; [now left | now right].
Qed.

Lemma match_literals_distinct text1 text2 s :
  text1 <> text2 ->
  text1 <> text2 ++ String (ascii_of_nat 10) EmptyString ->
  text2 <> text1 ++ String (ascii_of_nat 10) EmptyString ->
  match_literals text1 s = true -> match_literals text2 s = true -> False.
Proof.
  intros Hne H12 H21 H1 H2.
  apply match_literals_inv in H1. apply match_literals_inv in H2.
  destruct H1 as [->| ->], H2 as [H|H]; try congruence.
  assert (Hinj : forall a b : string,
             a ++ String (ascii_of_nat 10) EmptyString
             = b ++ String (ascii_of_nat 10) EmptyString -> a = b).
  { induction a as [|x a IHa]; intros [|y b]; simpl; intros E;
      try reflexivity.
    - injection E as _ E. destruct b; discriminate.
    - injection E as _ E. destruct a; discriminate.
    - injection E as -> E. f_equal. now apply IHa. }
  apply Hne. now apply Hinj.
Qed.

Lemma route_accepts_one_index method path i j :
  route_accepts i method path = true ->
  route_accepts j method path = true ->
  i = j.
Proof.
  assert (Hmethod : String.eqb "GET" method = true ->
                    String.eqb "POST" method = true -> False).
  { intros H1 H2. apply String.eqb_eq in H1. apply String.eqb_eq in H2.
    congruence. }
  assert (Hsegments : forall segs1 segs2,
             List.length segs1 <> List.length segs2 ->
             match match_segments segs1 path [] with
             | Some _ => true
             | None => false
             end = true ->
             match match_segments segs2 path [] with
             | Some _ => true
             | None => false
             end = true -> False).
  { intros segs1 segs2 Hlen H1 H2. apply Hlen.
    apply (match_segments_one_length segs1 segs2 path [] []).
    - destruct (match_segments segs1 path []); [discriminate | discriminate H1].
    - destruct (match_segments segs2 path []); [discriminate | discriminate H2]. }
  assert (Hroot : forall name lo more,
             (1 <= lo)%nat ->
             match_literals "/" path = true ->
             match match_segments ((name, lo) :: more) path [] with
             | Some _ => true
             | None => false
             end = true -> False).
  { intros name lo more Hlo H1 H2.
    now rewrite (root_matches_no_segments name lo more path [] Hlo H1) in H2. }
  destruct i as [|[|[|[|[|[|[|i]]]]]]]; try discriminate;
    destruct j as [|[|[|[|[|[|[|j]]]]]]]; try discriminate;
    try reflexivity;
    cbn [route_accepts]; intros Hi Hj;
    apply andb_prop in Hi as [Hmi Hi]; apply andb_prop in Hj as [Hmj Hj];
    exfalso;
    first [ now apply Hmethod
          | refine (Hsegments _ _ _ Hi Hj); cbv; lia
          | refine (Hroot _ _ _ _ Hi Hj); lia
          | refine (Hroot _ _ _ _ Hj Hi); lia
          | refine (match_literals_distinct _ _ path _ _ _ Hi Hj);
            cbv; discriminate ].
Qed.

(** X14.  The patterns of [create_application] exclude one another: on a
    platform whose [re.match] is the matcher of the reference platform, no
    request is accepted by two routes, so the order of registration never
    decides which handler is called. *)
Theorem routes_accept_disjoint_requests
  (P : Platform) (request : Request) (i j : nat) (first second : Route) :
  regex_match P = re_match ->
  nth_error (create_application P) i = Some first ->
  nth_error (create_application P) j = Some second ->
  accepts P first request = true ->
  accepts P second request = true ->
  i = j.
Proof.
  intros Hre Hi Hj Hfirst Hsecond.
  rewrite (accepts_route_accepts P request i first Hre Hi) in Hfirst.
  rewrite (accepts_route_accepts P request j second Hre Hj) in Hsecond.
  eapply route_accepts_one_index; eassumption.
Qed.

Lemma routes_accept_disjoint_requests_witness :
  regex_match Reference.platform = re_match
  /\ accepts Reference.platform
       {| method := "GET";
          path_regex := "^/(?P<continent>[a-zA-Z_]+)/(?P<city>[a-zA-Z_]+)$";
          handler := render_continent_city_time Reference.platform |}
       (render_request "/Asia/Novosibirsk") = true
  /\ 2%nat = 2%nat.
Proof.
  split; [reflexivity|]. split; [reflexivity|].
  apply (routes_accept_disjoint_requests Reference.platform
           (render_request "/Asia/Novosibirsk") 2 2
           {| method := "GET";
              path_regex := "^/(?P<continent>[a-zA-Z_]+)/(?P<city>[a-zA-Z_]+)$";
              handler := render_continent_city_time Reference.platform |}
           {| method := "GET";
              path_regex := "^/(?P<continent>[a-zA-Z_]+)/(?P<city>[a-zA-Z_]+)$";
              handler := render_continent_city_time Reference.platform |});
    reflexivity.
Defined.

(** ** Words and paths *)

Lemma string_app_assoc (a b c : string) : (a ++ b) ++ c = a ++ (b ++ c).
Proof. induction a as [|x a IH]; simpl; [reflexivity | now rewrite IH]. Qed.

Lemma word_cons c rest :
  word (String c rest) = if in_charset zone_chars c then S (word rest) else 0%nat.
Proof. reflexivity. Qed.

Lemma word_of_word w rest :
  is_word w = true ->
  (forall c r, rest = String c r -> in_charset zone_chars c = false) ->
  word (w ++ rest) = String.length w
  /\ the_word (w ++ rest) = w
  /\ after_word (w ++ rest) = rest.
Proof.
  intros Hw Hrest. unfold the_word, after_word.
  induction w as [|c w IH].
  - simpl. destruct rest as [|d r]; [now repeat split|].
    rewrite word_cons, (Hrest d r eq_refl). now repeat split.
  - cbn [is_word] in Hw. apply andb_prop in Hw as [Hc Hw].
    destruct (IH Hw) as (Hlen & Hthe & Hafter).
    change (String c w ++ rest) with (String c (w ++ rest)).
    rewrite word_cons, Hc, Hlen. cbn [String.length substring skip].
    rewrite Hlen in Hthe, Hafter. now rewrite Hthe, Hafter.
Qed.

Lemma word_split s :
  s = the_word s ++ after_word s
  /\ is_word (the_word s) = true
  /\ String.length (the_word s) = word s
  /\ (forall c r, after_word s = String c r -> in_charset zone_chars c = false).
Proof.
  unfold the_word, after_word. induction s as [|c s IH].
  - repeat split. intros c r. discriminate.
  - rewrite word_cons. destruct (in_charset zone_chars c) eqn:Hc.
    + destruct IH as (Hs & Hw & Hlen & Hafter).
      cbn [substring skip is_word String.length].
      rewrite Hc, Hw, Hlen. repeat split; auto.
      cbn [append]. now rewrite <- Hs.
    + cbn [substring skip]. repeat split.
      intros d r [= <- <-]. assumption.
Qed.

Lemma path_of_words_head words final c r :
  at_end final = true ->
  path_of_words words ++ final = String c r ->
  in_charset zone_chars c = false.
Proof.
  intros Hfinal. destruct words as [|w more]; simpl.
  - destruct (at_end_inv _ Hfinal) as [->| ->]; [discriminate|].
    now intros [= <- <-].
  - now intros [= <- _].
Qed.

(** A pattern of segments takes a path of fitting words. *)
Lemma match_segments_words segs words :
  Forall2 fits segs words ->
  forall final g,
    at_end final = true ->
    match_segments segs (path_of_words words ++ final) g
    = Some (captured segs words g).
Proof.
  induction 1 as [|[name lo] w segs words [Hw Hlo] _ IH]; intros final g Hfinal.
  - simpl. now rewrite Hfinal.
  - cbn [path_of_words]. rewrite !string_app_assoc.
    change ("/" ++ w ++ path_of_words words ++ final)
      with (String "/" (w ++ (path_of_words words ++ final))).
    cbn [match_segments captured].
    destruct (word_of_word w (path_of_words words ++ final) Hw)
      as (Hlen & Hthe & Hafter).
    { intros c r. now apply path_of_words_head. }
    rewrite Hlen, Hthe, Hafter. simpl in Hlo.
    destruct (String.length w <? lo)%nat eqn:E;
      [apply Nat.ltb_lt in E; lia | now apply IH].
Qed.

(** And it takes nothing else. *)
Lemma match_segments_inv segs :
  forall s g g',
    match_segments segs s g = Some g' ->
    exists words final,
      s = path_of_words words ++ final
      /\ at_end final = true
      /\ Forall2 fits segs words
      /\ g' = captured segs words g.
Proof.
  induction segs as [|[name lo] more IH]; intros s g g'; cbn [match_segments].
  - destruct (at_end s) eqn:E; [|discriminate]. intros [= <-].
    exists [], s. repeat split; auto.
  - destruct s as [|c rest]; [discriminate|].
    destruct (Ascii.eqb c "/") eqn:Ec.
    + apply Ascii.eqb_eq in Ec. subst c.
      destruct (word rest <? lo)%nat eqn:Hlo; [discriminate|].
      intros H. apply IH in H as (words & final & Hs & Hfinal & Hfits & ->).
      destruct (word_split rest) as (Hrest & Hw & Hlen & _).
      exists (the_word rest :: words), final. repeat split; auto.
      * cbn [path_of_words]. rewrite !string_app_assoc, <- Hs.
        change ("/" ++ the_word rest ++ after_word rest)
          with (String "/" (the_word rest ++ after_word rest)).
        now rewrite <- Hrest.
      * constructor; [|assumption]. split; [assumption|]. simpl.
        rewrite Hlen. apply Nat.ltb_ge in Hlo. lia.
    + apply Ascii.eqb_neq in Ec.
      destruct c as [[] [] [] [] [] [] [] []]; try discriminate. congruence.
Qed.

Lemma zone_route_accepts P request segs words final :
  regex_match P = re_match ->
  get_method request = "GET" ->
  In segs zone_routes ->
  Forall2 fits segs words ->
  at_end final = true ->
  get_path request = path_of_words words ++ final ->
  exists route,
    nth_error (create_application P) (4 - List.length segs) = Some route
    /\ accepts P route request = true
    /\ regex_match P (path_regex route) (get_path request)
       = Some (captured segs words []).
Proof.
  intros Hre Hget Hsegs Hfits Hfinal Hpath.
  pose proof (match_segments_words segs words Hfits final [] Hfinal) as Hmatch.
  rewrite <- Hpath in Hmatch.
  destruct Hsegs as [<-|[<-|[<-|[]]]];
    (eexists; split; [reflexivity|]);
    unfold accepts; cbn [method path_regex]; rewrite Hget, Hre.
  - rewrite (re_match_segments _ bare_zone) by reflexivity.
    now rewrite Hmatch.
  - rewrite (re_match_segments _ continent_city) by reflexivity.
    now rewrite Hmatch.
  - rewrite (re_match_segments _ continent_country_city) by reflexivity.
    now rewrite Hmatch.
Qed.

(** X15.  The three zone routes hand their handler the zone the path
    spells: for a path of one word of three or more zone characters, or of
    two or three words, each after a slash, the dispatcher calls the route
    made for that number of words, and the answer is the page (or the
    error) of the zone named by the words joined with slashes. *)
Theorem zone_page_is_the_page_of_the_zone_in_the_path
  (P : Platform) (request : Request) (segs : list (string * nat))
  (words : list string) (final : string) :
  regex_match P = re_match ->
  get_method request = "GET" ->
  In segs zone_routes ->
  Forall2 fits segs words ->
  at_end final = true ->
  get_path request = path_of_words words ++ final ->
  handle_request P (create_application P) request
  = ([(4 - List.length segs)%nat],
     dispatch
       (text <- get_str_datetime P (TimezoneModel_init (VStr (zone_path words))) ;;
        Response_html text 200)).
Proof.
  intros Hre Hget Hsegs Hfits Hfinal Hpath.
  destruct (zone_route_accepts P request segs words final
              Hre Hget Hsegs Hfits Hfinal Hpath)
    as (route & Hnth & Haccepts & Hgroups).
  destruct (handle_request_from_first P (create_application P) request 0%nat)
    as (i & found & g & Hi & Hfound & _ & Hg & Hrun).
  { exists route. split; [now apply nth_error_In in Hnth | assumption]. }
  assert (i = (4 - List.length segs)%nat).
  { apply (route_accepts_one_index (get_method request) (get_path request)).
    - now rewrite <- (accepts_route_accepts P request i found Hre Hi).
    - now rewrite <- (accepts_route_accepts P request _ route Hre Hnth). }
  subst i. assert (found = route) by congruence. subst found.
  assert (g = captured segs words []) by congruence. subst g.
  unfold handle_request. rewrite Hrun. simpl Nat.add. f_equal. f_equal.
  destruct Hsegs as [<-|[<-|[<-|[]]]]; injection Hnth as <-; cbn [handler].
  - inversion Hfits as [|? w ? ? _ Hnil]; subst.
    inversion Hnil; subst. reflexivity.
  - inversion Hfits as [|? w1 ? ? _ Hmore]; subst.
    inversion Hmore as [|? w2 ? ? _ Hnil]; subst.
    inversion Hnil; subst. reflexivity.
  - inversion Hfits as [|? w1 ? ? _ Hmore]; subst.
    inversion Hmore as [|? w2 ? ? _ Hmore']; subst.
    inversion Hmore' as [|? w3 ? ? _ Hnil]; subst.
    inversion Hnil; subst. reflexivity.
Qed.

Lemma zone_page_is_the_page_of_the_zone_in_the_path_witness :
  serve (render_request "/America/Argentina/Buenos_Aires")
  = ([(4 - List.length continent_country_city)%nat],
     dispatch
       (text <- get_str_datetime Reference.platform
                  (TimezoneModel_init
                     (VStr (zone_path ["America"; "Argentina"; "Buenos_Aires"]))) ;;
        Response_html text 200)).
Proof.
  apply (zone_page_is_the_page_of_the_zone_in_the_path Reference.platform
           (render_request "/America/Argentina/Buenos_Aires")
           continent_country_city
           ["America"; "Argentina"; "Buenos_Aires"] EmptyString).
  - reflexivity.
  - reflexivity.
  - right. right. now left.
  - repeat constructor.
  - reflexivity.
  - reflexivity.
Defined.

(** X16.  Which GET requests are not answered 404: exactly those whose
    path is the root, or one word of three or more zone characters, or
    two or three non-empty words of zone characters, each after a slash,
    with or without a newline at the end.  A bare name of one or two
    letters and a name with a digit, a sign or a hyphen are not found. *)
Theorem get_request_is_found_iff (P : Platform) (request : Request) :
  regex_match P = re_match ->
  get_method request = "GET" ->
  called (handle_request P (create_application P) request) <> []
  <-> found_path (get_path request).
Proof.
  intros Hre Hget. unfold handle_request. split.
  - destruct (handle_request_from_cases P (create_application P) request 0%nat)
      as [->|(i & route & g & Hin & Hmethod & Hg & _)];
      [intros H; now elim H|].
    intros _. rewrite Hre in Hg. rewrite Hget in Hmethod. simpl in Hin.
    destruct Hin as [<-|[<-|[<-|[<-|[<-|[<-|[<-|[]]]]]]]];
      cbn [method path_regex] in *; try discriminate Hmethod.
    + rewrite (re_match_literals _ "/") in Hg by reflexivity.
      left. cbn [match_literals] in Hg.
      destruct (get_path request) as [|c rest]; [discriminate|].
      destruct (Ascii.eqb c "/") eqn:Ec; [|discriminate].
      apply Ascii.eqb_eq in Ec. subst c.
      exists rest. split; [|reflexivity].
      simpl in Hg. now destruct (at_end rest).
    + rewrite (re_match_segments _ continent_country_city) in Hg
        by reflexivity.
      apply match_segments_inv in Hg as (words & final & Hs & Hf & Hfits & _).
      right. exists continent_country_city, words, final.
      repeat split; auto. right. right. now left.
    + rewrite (re_match_segments _ continent_city) in Hg by reflexivity.
      apply match_segments_inv in Hg as (words & final & Hs & Hf & Hfits & _).
      right. exists continent_city, words, final.
      repeat split; auto. right. now left.
    + rewrite (re_match_segments _ bare_zone) in Hg by reflexivity.
      apply match_segments_inv in Hg as (words & final & Hs & Hf & Hfits & _).
      right. exists bare_zone, words, final.
      repeat split; auto. now left.
  - intros Hfound.
    assert (Hsome : exists route,
               In route (create_application P)
               /\ accepts P route request = true).
    { destruct Hfound as [(final & Hfinal & Hpath)
                         |(segs & words & final & Hsegs & Hfits & Hfinal & Hpath)].
      - exists {| method := "GET"; path_regex := "^/$";
                  handler := render_server_time P |}.
        split; [now left|]. unfold accepts. cbn [method path_regex].
        rewrite Hget, Hre, (re_match_literals _ "/") by reflexivity.
        rewrite Hpath. cbn [match_literals append]. simpl. now rewrite Hfinal.
      - destruct (zone_route_accepts P request segs words final
                    Hre Hget Hsegs Hfits Hfinal Hpath)
          as (route & Hnth & Haccepts & _).
        exists route. split; [now apply nth_error_In in Hnth | assumption]. }
    destruct (handle_request_from_first P (create_application P) request
                0%nat Hsome)
      as (i & route & g & _ & _ & _ & _ & ->).
    discriminate.
Qed.

Lemma get_request_is_found_iff_witness :
  called (serve (render_request "/UTC")) <> []
  <-> found_path (get_path (render_request "/UTC")).
Proof.
  apply (get_request_is_found_iff Reference.platform (render_request "/UTC"));
    reflexivity.
Defined.

(** Two zones the routes do not reach, though both are names of the time
    zone database: two letters are too few for the bare route, and a digit
    is no zone character. *)
Example short_and_numbered_zones_are_not_found :
  map (fun path => serve (render_request path)) ["/GB"; "/Etc/GMT0"]
  = [([], Ok not_found); ([], Ok not_found)].
Proof. reflexivity. Qed.

(** X17.  In the terms of the two tests of the loop in
    [Router.handle_request]: when no registered route accepts the request,
    that is for every route the method differs or [re.match] finds no
    match of the pattern at the start of the path, no handler is called
    and the response is 404 with the body 'not found'. *)
Theorem unmatched_request_is_not_found
  (P : Platform) (routes : list Route) (request : Request) :
  (forall route, In route routes -> accepts P route request = false) ->
  called (handle_request P routes request) = []
  /\ outcome (handle_request P routes request) =
     Ok {| body := "not found";
           status := "404 Not Found";
           headers := [("Content-Type", "application/json")] |}.
Proof.
  intros Hnone. unfold handle_request. generalize 0%nat.
  induction routes as [|route rest IH]; intros n.
  - split; reflexivity.
  - rewrite handle_request_from_skip by (apply Hnone; now left).
    apply IH. intros r Hin. apply Hnone. now right.
Qed.

Lemma unmatched_request_is_not_found_witness :
  (forall route,
      In route (create_application Reference.platform) ->
      accepts Reference.platform route (render_request "/ab") = false)
  /\ called (serve (render_request "/ab")) = []
  /\ outcome (serve (render_request "/ab")) =
     Ok {| body := "not found";
           status := "404 Not Found";
           headers := [("Content-Type", "application/json")] |}.
Proof.
  assert (Hnone :
            forall route,
              In route (create_application Reference.platform) ->
              accepts Reference.platform route (render_request "/ab") = false).
  { intros route Hin. simpl in Hin.
    repeat (destruct Hin as [<-|Hin]; [reflexivity|]). destruct Hin. }
  split; [exact Hnone|].
  exact (unmatched_request_is_not_found Reference.platform
           (create_application Reference.platform)
           (render_request "/ab") Hnone).
Defined.
